(** * Agent-Next-Web: the agent execution core

    A shallow embedding of [app/agent/codeact.py] (class [CodeActAgent]:
    [think], [act], [_run_command], [_is_special_command]) and of the
    overriding part of [app/agent/swe.py] ([SWEAgent.think]), with the
    properties of the think/act loop, the command dispatcher and the
    completion check proved over it.

    Python methods mutate [self] and call out to the shell, the language
    model and the tools.  They are modelled as computations of the monad
    [M]: a function from the system state (the agent object, the external
    world, and a ghost record of the external calls made so far) to an
    outcome (a returned value or a raised exception) and a new state. *)

From stdpp Require Import base option list strings gmap pretty.
From Stdlib Require Import Ascii ZArith Lia.

(** ** Python values, exceptions and outcomes *)

(** The values a tool hands back to the dispatcher.  The dispatcher only
    tests them for truthiness and converts them with [str]. *)
Inductive PyValue : Type :=
  | VNone
  | VBool (b : bool)
  | VInt (z : Z)
  | VStr (s : string).

(** Python truthiness: [None], [False], [0] and the empty string are falsy. *)
Definition truthy (v : PyValue) : bool :=
  match v with
  | VNone => false
  | VBool b => b
  | VInt z => negb (bool_decide (z = 0%Z))
  | VStr s => negb (bool_decide (s = EmptyString))
  end.

(** Python [str(v)]. *)
Definition py_str (v : PyValue) : string :=
  match v with
  | VNone => "None"
  | VBool true => "True"
  | VBool false => "False"
  | VInt z => pretty z
  | VStr s => s
  end.

(** A raised exception: whether its class derives from [Exception] (what
    [except Exception] catches; [KeyboardInterrupt], [SystemExit] and
    [asyncio.CancelledError] derive from [BaseException] only), and the text
    [traceback.format_exc()] renders for it. *)
Record PyExc : Type := mkExc {
  exc_is_Exception : bool;
  exc_traceback : string
}.

Inductive outcome (A : Type) : Type :=
  | Return (a : A)
  | Raise (e : PyExc).
Arguments Return {A} a.
Arguments Raise {A} e.

(** The line feed, and the texts the dispatcher builds. *)
Definition nl : string := String "010"%char EmptyString.

(** [sep.join(parts)] *)
Fixpoint str_join (sep : string) (parts : list string) : string :=
  match parts with
  | [] => EmptyString
  | [p] => p
  | p :: rest => p +:+ sep +:+ str_join sep rest
  end.

(** [s.startswith(p)] *)
Definition startswith (p s : string) : bool :=
  Stdlib.Strings.String.prefix p s.

(** ** [str.format(current_dir=...)]

    The round instruction is built with
    [self.next_step_prompt.format(current_dir=self.working_dir)].
    [py_format] follows Python's scanning of the template: [{{] and [}}] are
    literal braces, [{current_dir}] is replaced by the value, a lone brace
    is a [ValueError], and any other field name is a [KeyError] (or an
    [IndexError] for a positional field) since [current_dir] is the only
    argument.  Fields that carry a conversion or a format specification are
    not used by the prompt templates; the model reports them as raised. *)
Definition ValueError (msg : string) : PyExc :=
  mkExc true ("ValueError: " +:+ msg).
Definition KeyError (key : string) : PyExc :=
  mkExc true ("KeyError: '" +:+ key +:+ "'").

Fixpoint py_format_go (tmpl : string) (field : option string)
    (current_dir : string) (acc : string) : outcome string :=
  match tmpl, field with
  | EmptyString, None => Return acc
  | EmptyString, Some _ => Raise (ValueError "expected '}' before end of string")
  | String c rest, None =>
      if bool_decide (c = "{"%char) then
        match rest with
        | String "{"%char rest' => py_format_go rest' None current_dir (acc +:+ "{")
        | _ => py_format_go rest (Some EmptyString) current_dir acc
        end
      else if bool_decide (c = "}"%char) then
        match rest with
        | String "}"%char rest' => py_format_go rest' None current_dir (acc +:+ "}")
        | _ => Raise (ValueError "Single '}' encountered in format string")
        end
      else py_format_go rest None current_dir (acc +:+ String c EmptyString)
  | String c rest, Some name =>
      if bool_decide (c = "}"%char) then
        if bool_decide (name = "current_dir")
        then py_format_go rest None current_dir (acc +:+ current_dir)
        else Raise (KeyError name)
      else if bool_decide (c = "{"%char) then
        Raise (ValueError "unexpected '{' in field name")
      else py_format_go rest (Some (name +:+ String c EmptyString)) current_dir acc
  end.

Definition py_format (tmpl current_dir : string) : outcome string :=
  py_format_go tmpl None current_dir EmptyString.

(** A text without braces: it has no field and no escaped brace. *)
Fixpoint brace_free (t : string) : bool :=
  match t with
  | EmptyString => true
  | String c rest =>
      negb (bool_decide (c = "{"%char)) && negb (bool_decide (c = "}"%char))
      && brace_free rest
  end.

(** ** Data model *)

(** [app.schema.AgentState] *)
Inductive AgentState : Type := IDLE | RUNNING | FINISHED | ERROR.

Global Instance AgentState_eq_dec : EqDecision AgentState.
Proof. solve_decision. Defined.

Inductive Role : Type := user | assistant | tool.

Global Instance Role_eq_dec : EqDecision Role.
Proof. solve_decision. Defined.

(** A tool call as the model emits it: [command.id], [command.function.name]
    and [command.function.arguments] (the raw JSON text). *)
Record ToolCall : Type := mkToolCall {
  call_id : string;
  function_name : string;
  function_arguments : string
}.

(** The dict [transform_tool_call_to_command] builds: the command name under
    the key ["command"] and the keyword arguments of the tool under ["args"].
    A field is [None] when the key is missing from the dict. *)
Record Cmd : Type := mkCmd {
  command : option string;
  args : option (gmap string PyValue)
}.

(** Modelled from the spec: the class [app.schema.Message] is not among the
    sources.  Section 3 of the spec gives its shape: a role, an optional
    content, the tool calls of an assistant message, and the correlation id
    and tool name of a tool message. *)
Record Message : Type := mkMessage {
  role : Role;
  content : option string;
  tool_calls : option (list ToolCall);
  tool_call_id : option string;
  name : option string
}.

(** [Message(role="user", content=text)] *)
Definition user_message (text : string) : Message :=
  mkMessage user (Some text) None None None.

(** Modelled from the spec: [Message.from_tool_calls(content, tool_calls)]
    records the model's free text and its requested tool calls as an
    assistant message. *)
Definition from_tool_calls (text : option string)
    (calls : option (list ToolCall)) : Message :=
  mkMessage assistant text calls None None.

(** Modelled from the spec: [Message.tool_message(content, tool_call_id,
    name)] is the tool-role message keyed by the correlation id. *)
Definition tool_message (text : string) (id : string) (tool_name : string)
    : Message :=
  mkMessage tool (Some text) None (Some id) (Some tool_name).

(** What [llm.aask_function] returns: [response.content] and
    [response.tool_calls], either of which may be [None]. *)
Record Response : Type := mkResponse {
  response_content : option string;
  response_tool_calls : option (list ToolCall)
}.

(** ** The agent, the world around it, and the monad of its methods *)

Section Agent.

(** The external environment the tools and the shell act on (file system,
    shell session, the model service), and the schema type the tools are
    described with.  Both are opaque to the loop. *)
Context {World : Type} {ToolParam : Type}.

(** A registered capability: [tool_cls().execute].  It is either a
    coroutine function or a plain function; called with keyword arguments it
    returns a value or raises, and may change the world. *)
Record Executor : Type := mkExecutor {
  iscoroutinefunction : bool;
  call : gmap string PyValue -> World -> outcome PyValue * World
}.

(** A tool class: its [name], its schema ([to_tool_param()]) and the
    [execute] method of a fresh instance. *)
Record Tool : Type := mkTool {
  tool_name : string;
  to_tool_param : ToolParam;
  execute : Executor
}.

(** The fields of [CodeActAgent] the methods read or write, with the
    message list of [self.memory] and the [state] inherited from
    [BaseAgent].  [current_step] is the step counter of the run loop. *)
Record Agent : Type := mkAgent {
  system_prompt : string;
  next_step_prompt : string;
  tools : list Tool;
  tool_execution_map : gmap string Executor;
  special_tool_commands : list string;
  commands : list ToolCall;
  working_dir : string;
  max_react_loop : nat;
  state : AgentState;
  messages : list Message;
  current_step : nat
}.

(** The external calls a method makes, recorded in the order they happen. *)
Inductive Event : Type :=
  | EvBash (cmd : string)
  | EvAsk (msgs : list Message) (params : list ToolParam)
          (system_msgs : list string)
  | EvTool (cmd_name : string) (kwargs : gmap string PyValue).

Record Sys : Type := mkSys {
  self : Agent;
  world : World;
  calls : list Event
}.

Definition M (A : Type) : Type := Sys -> outcome A * Sys.

Definition ret {A} (a : A) : M A := fun s => (Return a, s).
Definition raise {A} (e : PyExc) : M A := fun s => (Raise e, s).
Definition bind {A B} (m : M A) (k : A -> M B) : M B :=
  fun s => match m s with
           | (Return a, s') => k a s'
           | (Raise e, s') => (Raise e, s')
           end.

Notation "x <~ m ; k" := (bind m (fun x => k))
  (at level 20, m at level 100, k at level 200, only parsing).
Notation "'exec' m ; k" := (bind m (fun _ => k))
  (at level 20, m at level 100, k at level 200, only parsing).

(** [try: body / except Exception: handler]: only exceptions deriving from
    [Exception] are handled; what [body] did to the state stays done. *)
Definition try_except_Exception {A} (body : M A) (handler : PyExc -> M A)
    : M A :=
  fun s => match body s with
           | (Return a, s') => (Return a, s')
           | (Raise e, s') =>
               if exc_is_Exception e then handler e s' else (Raise e, s')
           end.

Definition get_self : M Agent := fun s => (Return (self s), s).
Definition modify_self (f : Agent -> Agent) : M unit :=
  fun s => (Return tt, mkSys (f (self s)) (world s) (calls s)).

(** Field assignments on [self]. *)
Definition set_working_dir (d : string) (a : Agent) : Agent :=
  mkAgent (system_prompt a) (next_step_prompt a) (tools a)
    (tool_execution_map a) (special_tool_commands a) (commands a) d
    (max_react_loop a) (state a) (messages a) (current_step a).
Definition set_next_step_prompt (p : string) (a : Agent) : Agent :=
  mkAgent (system_prompt a) p (tools a)
    (tool_execution_map a) (special_tool_commands a) (commands a)
    (working_dir a) (max_react_loop a) (state a) (messages a) (current_step a).
Definition set_commands (c : list ToolCall) (a : Agent) : Agent :=
  mkAgent (system_prompt a) (next_step_prompt a) (tools a)
    (tool_execution_map a) (special_tool_commands a) c (working_dir a)
    (max_react_loop a) (state a) (messages a) (current_step a).
Definition set_state (st : AgentState) (a : Agent) : Agent :=
  mkAgent (system_prompt a) (next_step_prompt a) (tools a)
    (tool_execution_map a) (special_tool_commands a) (commands a)
    (working_dir a) (max_react_loop a) st (messages a) (current_step a).
Definition set_tool_map (m : gmap string Executor) (a : Agent) : Agent :=
  mkAgent (system_prompt a) (next_step_prompt a) (tools a)
    m (special_tool_commands a) (commands a)
    (working_dir a) (max_react_loop a) (state a) (messages a) (current_step a).
Definition set_current_step (n : nat) (a : Agent) : Agent :=
  mkAgent (system_prompt a) (next_step_prompt a) (tools a)
    (tool_execution_map a) (special_tool_commands a) (commands a)
    (working_dir a) (max_react_loop a) (state a) (messages a) n.

(** [self.memory.add_message(msg)]: the log is append-only. *)
Definition add_message (msg : Message) (a : Agent) : Agent :=
  mkAgent (system_prompt a) (next_step_prompt a) (tools a)
    (tool_execution_map a) (special_tool_commands a) (commands a)
    (working_dir a) (max_react_loop a) (state a) (messages a ++ [msg])
    (current_step a).

(** The collaborators that are not part of the sources: the shell tool
    behind [self.bash], the model service behind [self.llm], and the command
    extractor [app.utils.transform_tool_call_to_command]. *)
Context (bash_execute : string -> World -> outcome string * World).
Context (aask_function :
  list Message -> list ToolParam -> list string -> World ->
  outcome Response * World).
Context (transform_tool_call_to_command : ToolCall -> Cmd).

(** An external call: record it, run it on the world. *)
Definition external {A} (ev : Event) (f : World -> outcome A * World) : M A :=
  fun s => let '(r, w) := f (world s) in
           (r, mkSys (self s) w (calls s ++ [ev])).

(** ** [CodeActAgent] *)

(** [set_tool_execution_map]: the validator run at construction. *)
Definition set_tool_execution_map (a : Agent) : Agent :=
  set_tool_map
    (foldl (fun m tool_cls => <[tool_name tool_cls := execute tool_cls]> m)
           (tool_execution_map a) (tools a))
    a.

(** A [CodeActAgent] as the class body declares it: the prompts and the
    tool classes are configuration; [special_tool_commands] defaults to
    [["finish"]] unless given; the validator then fills the map. *)
Definition CodeActAgent (system : string) (next_step : string)
    (tool_list : list Tool) (terminal : option (list string)) : Agent :=
  set_tool_execution_map
    (mkAgent system next_step tool_list ∅ (default ["finish"] terminal)
       [] EmptyString 30 IDLE [] 0).

(** [MidwitAgent.special_tool_commands]: the name of its completion tool,
    [AttemptCompletionClientRequest.name]. *)
Definition MidwitAgent_special_tool_commands (attempt_completion : string)
    : list string :=
  [attempt_completion].

(** [get_tool_params] *)
Definition get_tool_params (a : Agent) : list ToolParam :=
  map to_tool_param (tools a).

(** [_is_special_command]: [cmd["command"] in self.special_tool_commands].
    Subscripting a missing key raises [KeyError]. *)
Definition _is_special_command (cmd : Cmd) : M bool :=
  match command cmd with
  | None => raise (KeyError "command")
  | Some n =>
      a <~ get_self;
      ret (bool_decide (n ∈ special_tool_commands a))
  end.

Definition observed_prefix (cmd_name : string) : string :=
  "Observed result of command `" +:+ cmd_name +:+ "` executed by user:" +:+ nl.

Definition no_output_sentence : string :=
  "The command ran successfully and did not produce any output.".

(** [_run_command] *)
Definition _run_command (cmd : Cmd) : M string :=
  let cmd_name := command cmd in
  let kwargs := default ∅ (args cmd) in
  match cmd_name with
  | None => ret ("Error:" +:+ nl +:+ "No command specified.")
  | Some n =>
      if bool_decide (n = EmptyString)
      then ret ("Error:" +:+ nl +:+ "No command specified.")
      else
        a <~ get_self;
        match tool_execution_map a !! n with
        | None => ret ("Error:" +:+ nl +:+ "Command '" +:+ n +:+ "' not found.")
        | Some tool_obj =>
            try_except_Exception
              (result <~ (if iscoroutinefunction tool_obj
                          then external (EvTool n kwargs) (call tool_obj kwargs)
                          else external (EvTool n kwargs) (call tool_obj kwargs));
               let observation := observed_prefix n in
               let observation :=
                 if truthy result
                 then observation +:+ py_str result
                 else observation +:+ no_output_sentence in
               special <~ _is_special_command cmd;
               exec (if special then modify_self (set_state FINISHED) else ret tt);
               ret observation)
              (fun e =>
                 let error_output := "Error:" +:+ nl in
                 let error_output := error_output +:+ exc_traceback e in
                 ret error_output)
        end
  end.

(** The body of the [for] loop of [act], over the commands still to run. *)
Fixpoint act_loop (cmds : list ToolCall) (outputs : list string)
    : M (list string) :=
  match cmds with
  | [] => ret outputs
  | command :: rest =>
      output <~ _run_command (transform_tool_call_to_command command);
      let tool_msg :=
        tool_message output (call_id command) (function_name command) in
      exec modify_self (add_message tool_msg);
      act_loop rest (outputs ++ [output])
  end.

(** [act] *)
Definition act : M string :=
  a <~ get_self;
  match commands a with
  | [] => ret "No commands to execute"
  | cmds =>
      outputs <~ act_loop cmds [];
      ret (str_join (nl +:+ nl) outputs)
  end.

(** [think] *)
Definition think : M bool :=
  wd <~ external (EvBash "pwd") (bash_execute "pwd");
  exec modify_self (set_working_dir wd);
  a <~ get_self;
  let msgs := messages a in
  msgs <~ (if bool_decide (next_step_prompt a = EmptyString)
           then ret msgs
           else match py_format (next_step_prompt a) (working_dir a) with
                | Return text => ret (msgs ++ [user_message text])
                | Raise e => raise e
                end);
  response <~ external (EvAsk msgs (get_tool_params a) [system_prompt a])
                (aask_function msgs (get_tool_params a) [system_prompt a]);
  exec modify_self (set_commands (default [] (response_tool_calls response)));
  let assistant_msg :=
    from_tool_calls (response_content response)
                    (response_tool_calls response) in
  exec modify_self (add_message assistant_msg);
  a <~ get_self;
  ret (bool_decide (commands a <> [])).

(** ** The run loop *)

(** Why a run ended (the run result of the spec, section 6). *)
Inductive Termination : Type :=
  | TerminalCommandFired
  | NoCommandsRequested
  | BudgetExhausted
  | OracleError.

Definition increment_step : M unit :=
  modify_self (fun a => set_current_step (S (current_step a)) a).

(** Modelled from the spec: the loop of [BaseAgent], which drives [think]
    and [act], is not among the sources.  Section 4.1 of the spec gives one
    round: consult the model; an exception escaping it puts the agent in
    state [ERROR] and ends the run; with no commands requested the round
    ends and the loop terminates; otherwise the batch is executed; the step
    counter is incremented once per completed round; a [FINISHED] state
    after the batch means no further round.  The result is [Some reason]
    when the run ends with this round and [None] when the loop goes on. *)
Definition round : M (option Termination) :=
  fun s =>
    match think s with
    | (Raise _, s1) =>
        (Return (Some OracleError),
         mkSys (set_state ERROR (self s1)) (world s1) (calls s1))
    | (Return false, s1) =>
        (exec increment_step; ret (Some NoCommandsRequested)) s1
    | (Return true, s1) =>
        (exec act;
         exec increment_step;
         a <~ get_self;
         if bool_decide (state a = FINISHED)
         then ret (Some TerminalCommandFired)
         else ret None) s1
    end.

(** Modelled from the spec: rounds repeat while the step budget lasts;
    running out of budget ends the run without marking it [FINISHED]. *)
Fixpoint rounds (budget : nat) : M Termination :=
  match budget with
  | O => ret BudgetExhausted
  | S budget' =>
      r <~ round;
      match r with
      | Some reason => ret reason
      | None => rounds budget'
      end
  end.

(** Modelled from the spec: [run()] moves the agent from [IDLE] to
    [RUNNING] and drives rounds up to the configured maximum. *)
Definition run : M Termination :=
  exec modify_self (set_state RUNNING);
  a <~ get_self;
  rounds (max_react_loop a - current_step a).

(** ** [SWEAgent] *)

(** Modelled from the spec: [ToolCallAgent.think], which [SWEAgent.think]
    ends with, is not among the sources.  Following section 4.1, steps 2
    to 4: the round instruction [self.next_step_prompt] is put on a
    transient copy of the log as a user message, the model is consulted, and
    the assistant message is appended to the log. *)
Definition ToolCallAgent_think : M bool :=
  a <~ get_self;
  let msgs := messages a in
  let msgs := if bool_decide (next_step_prompt a = EmptyString)
              then msgs
              else msgs ++ [user_message (next_step_prompt a)] in
  response <~ external (EvAsk msgs (get_tool_params a) [system_prompt a])
                (aask_function msgs (get_tool_params a) [system_prompt a]);
  exec modify_self (set_commands (default [] (response_tool_calls response)));
  exec modify_self
    (add_message (from_tool_calls (response_content response)
                                  (response_tool_calls response)));
  a <~ get_self;
  ret (bool_decide (commands a <> [])).

(** [SWEAgent.think], over the same record of fields: the working directory
    is refreshed, the formatted prompt is assigned back to
    [self.next_step_prompt], and the parent's [think] runs. *)
Definition SWEAgent_think (super_think : M bool) : M bool :=
  wd <~ external (EvBash "pwd") (bash_execute "pwd");
  exec modify_self (set_working_dir wd);
  a <~ get_self;
  match py_format (next_step_prompt a) (working_dir a) with
  | Raise e => raise e
  | Return text =>
      exec modify_self (set_next_step_prompt text);
      super_think
  end.

(** ** Vocabulary of the statements *)

Implicit Types (s : Sys) (a : Agent) (cmd : Cmd) (n : string).

(** The keyword arguments a command is dispatched with. *)
Definition kwargs_of (cmd : Cmd) : gmap string PyValue :=
  default ∅ (args cmd).

(** The command carries a usable name: the key is present and the name is
    not the empty string. *)
Definition named (cmd : Cmd) (n : string) : Prop :=
  command cmd = Some n /\ n <> EmptyString.

(** Every registered capability raises, if it raises, an exception that
    derives from [Exception]. *)
Definition raises_only_Exception (a : Agent) : Prop :=
  forall n tool_obj kw w e w',
    tool_execution_map a !! n = Some tool_obj ->
    call tool_obj kw w = (Raise e, w') ->
    exc_is_Exception e = true.

(** The state after a tool was called: the world it left and the call
    recorded. *)
Definition after_call s (a : Agent) (n : string) (cmd : Cmd) (w' : World)
    : Sys :=
  mkSys a w' (calls s ++ [EvTool n (kwargs_of cmd)]).

(** The tool messages answering a batch, given the observations. *)
Definition answers (cmds : list ToolCall) (obs : list string) : list Message :=
  zip_with (fun c o => tool_message o (call_id c) (function_name c)) cmds obs.

(** The five ways a dispatch can go, as a relation between the command,
    the state before, the outcome and the state after. *)
Inductive dispatched cmd s : outcome string -> Sys -> Prop :=
  | dispatched_unnamed :
      command cmd = None \/ command cmd = Some EmptyString ->
      dispatched cmd s
        (Return ("Error:" +:+ nl +:+ "No command specified.")) s
  | dispatched_unregistered n :
      named cmd n ->
      tool_execution_map (self s) !! n = None ->
      dispatched cmd s
        (Return ("Error:" +:+ nl +:+ "Command '" +:+ n +:+ "' not found.")) s
  | dispatched_contained n tool_obj e w' :
      named cmd n ->
      tool_execution_map (self s) !! n = Some tool_obj ->
      call tool_obj (kwargs_of cmd) (world s) = (Raise e, w') ->
      exc_is_Exception e = true ->
      dispatched cmd s
        (Return ("Error:" +:+ nl +:+ exc_traceback e))
        (after_call s (self s) n cmd w')
  | dispatched_escaped n tool_obj e w' :
      named cmd n ->
      tool_execution_map (self s) !! n = Some tool_obj ->
      call tool_obj (kwargs_of cmd) (world s) = (Raise e, w') ->
      exc_is_Exception e = false ->
      dispatched cmd s (Raise e) (after_call s (self s) n cmd w')
  | dispatched_observed n tool_obj v w' :
      named cmd n ->
      tool_execution_map (self s) !! n = Some tool_obj ->
      call tool_obj (kwargs_of cmd) (world s) = (Return v, w') ->
      dispatched cmd s
        (Return (observed_prefix n +:+
                 (if truthy v then py_str v else no_output_sentence)))
        (after_call s
           (if bool_decide (n ∈ special_tool_commands (self s))
            then set_state FINISHED (self s) else self s)
           n cmd w').

(** The fields of the agent a batch never assigns. *)
Record unchanged_config a a' : Prop := mkUnchanged {
  uc_system_prompt : system_prompt a' = system_prompt a;
  uc_next_step_prompt : next_step_prompt a' = next_step_prompt a;
  uc_tools : tools a' = tools a;
  uc_tool_execution_map : tool_execution_map a' = tool_execution_map a;
  uc_special_tool_commands :
    special_tool_commands a' = special_tool_commands a;
  uc_commands : commands a' = commands a;
  uc_working_dir : working_dir a' = working_dir a;
  uc_max_react_loop : max_react_loop a' = max_react_loop a;
  uc_current_step : current_step a' = current_step a
}.

(** The messages handed to the model: the log, with the round instruction
    on a copy of it when the agent has an instruction template. *)
Definition instruction_view a : outcome (list Message) :=
  if bool_decide (next_step_prompt a = EmptyString) then Return (messages a)
  else match py_format (next_step_prompt a) (working_dir a) with
       | Return text => Return (messages a ++ [user_message text])
       | Raise e => Raise e
       end.

(** The state [think] leaves when the shell answered [wd] and the model,
    asked with [msgs], answered [response] and left the world [w2]. *)
Definition after_think s (wd : string) (msgs : list Message)
    (response : Response) (w2 : World) : Sys :=
  mkSys
    (add_message
       (from_tool_calls (response_content response)
                        (response_tool_calls response))
       (set_commands (default [] (response_tool_calls response))
          (set_working_dir wd (self s))))
    w2
    (calls s ++
     [EvBash "pwd";
      EvAsk msgs (get_tool_params (self s)) [system_prompt (self s)]]).

(** The tool call a dispatch makes, if it makes one: a command with a
    usable name that is in the registry invokes that capability with its
    keyword arguments; any other command invokes nothing. *)
Definition invocation a cmd : option Event :=
  match command cmd with
  | None => None
  | Some n =>
      if bool_decide (n = EmptyString) then None
      else match tool_execution_map a !! n with
           | Some _ => Some (EvTool n (kwargs_of cmd))
           | None => None
           end
  end.

(** The command names one of the agent's terminal commands. *)
Definition names_terminal a cmd : bool :=
  match command cmd with
  | Some n => bool_decide (n ∈ special_tool_commands a)
  | None => false
  end.

(** The state with the step counter incremented. *)
Definition stepped s : Sys :=
  mkSys (set_current_step (S (current_step (self s))) (self s))
        (world s) (calls s).

End Agent.

Arguments Executor World : clear implicits.
Arguments Tool World ToolParam : clear implicits.
Arguments Agent World ToolParam : clear implicits.
Arguments Event ToolParam : clear implicits.
Arguments Sys World ToolParam : clear implicits.
Arguments M World ToolParam A : clear implicits.

(** ** A small concrete environment

    A world with a shell directory and a scripted model, and four tools:
    one that changes the directory, the terminal tool, one that raises an
    error, and one that raises an interrupt.  The properties below are
    exercised on it. *)
Module Demo.

Record World : Type := mkWorld {
  cwd : string;
  script : list Response
}.

Definition bash_execute (c : string) (w : World) : outcome string * World :=
  if bool_decide (c = "pwd") then (Return (cwd w), w)
  else (Return EmptyString, w).

Definition aask_function (msgs : list Message) (params : list unit)
    (system_msgs : list string) (w : World) : outcome Response * World :=
  match script w with
  | [] => (Raise (mkExc true "ConnectionError: no reply"), w)
  | r :: rest => (Return r, mkWorld (cwd w) rest)
  end.

Definition transform_tool_call_to_command (tc : ToolCall) : Cmd :=
  mkCmd (Some (function_name tc))
        (Some {[ "command" := VStr (function_arguments tc) ]}).

Definition bash_tool : Tool World unit :=
  mkTool "bash" tt
    (mkExecutor true (fun kwargs w =>
       match kwargs !! "command" with
       | Some (VStr d) => (Return (VStr EmptyString), mkWorld d (script w))
       | _ => (Raise (mkExc true "TypeError: missing argument 'command'"), w)
       end)).

Definition finish_tool : Tool World unit :=
  mkTool "finish" tt (mkExecutor true (fun _ w => (Return (VStr "done"), w))).

Definition failing_tool : Tool World unit :=
  mkTool "boom" tt
    (mkExecutor false (fun _ w =>
       (Raise (mkExc true "Traceback (most recent call last): RuntimeError: boom"), w))).

Definition interrupted_tool : Tool World unit :=
  mkTool "halt" tt
    (mkExecutor false (fun _ w => (Raise (mkExc false "KeyboardInterrupt"), w))).

(** An agent as constructed: the validator has filled the map. *)
Definition agent_of (tool_list : list (Tool World unit))
    (terminal : list string) : Agent World unit :=
  CodeActAgent "system" "cwd: {current_dir}" tool_list (Some terminal).

(** The default [CodeActAgent] configuration: ["finish"] is terminal. *)
Definition agent0 : Agent World unit :=
  agent_of [bash_tool; finish_tool; failing_tool; interrupted_tool] ["finish"].

(** The same without the interrupting tool. *)
Definition safe_agent : Agent World unit :=
  agent_of [bash_tool; finish_tool; failing_tool] ["finish"].

(** An agent whose terminal tool fails. *)
Definition unlucky_agent : Agent World unit :=
  agent_of [bash_tool; failing_tool] ["boom"].

Definition sys_of (a : Agent World unit) (replies : list Response)
    : Sys World unit :=
  mkSys a (mkWorld "/a" replies) [].

Definition sys0 (replies : list Response) : Sys World unit :=
  sys_of agent0 replies.

(** A system with a batch of commands pending and the loop running. *)
Definition pending_of (a : Agent World unit) (batch : list ToolCall)
    : Sys World unit :=
  mkSys (set_commands batch (set_state RUNNING a)) (mkWorld "/a" []) [].

Definition pending (batch : list ToolCall) : Sys World unit :=
  pending_of agent0 batch.

Definition tc (id fname arguments : string) : ToolCall :=
  mkToolCall id fname arguments.

Definition run_command := @_run_command World unit.
Definition is_special_command := @_is_special_command World unit.
Definition act_loop :=
  @act_loop World unit transform_tool_call_to_command.
Definition act := @act World unit transform_tool_call_to_command.
Definition think := think bash_execute aask_function.
Definition round := round bash_execute aask_function transform_tool_call_to_command.
Definition rounds := rounds bash_execute aask_function transform_tool_call_to_command.
Definition run := run bash_execute aask_function transform_tool_call_to_command.
Definition SWEAgent_think :=
  SWEAgent_think bash_execute (ToolCallAgent_think aask_function).

(** Two rounds in which the first batch changes the directory of the shell
    from [/a] to [/b]: the states an agent reaches after the first round
    and after the [think] of the second, for [SWEAgent.think] and for
    [CodeActAgent.think]. *)
Definition moving_replies : list Response :=
  [mkResponse (Some "moving") (Some [tc "c1" "bash" "/b"]);
   mkResponse None (Some [tc "c2" "finish" EmptyString])].

Definition swe_after_round1 : Sys World unit :=
  (act (SWEAgent_think (sys_of safe_agent moving_replies)).2).2.

Definition swe_after_think2 : Sys World unit :=
  (SWEAgent_think swe_after_round1).2.

Definition codeact_after_round1 : Sys World unit :=
  (act (think (sys_of safe_agent moving_replies)).2).2.

Definition codeact_after_think2 : Sys World unit :=
  (think codeact_after_round1).2.

(** A round whose batch has the terminal command in the middle. *)
Definition mixed_batch : list ToolCall :=
  [tc "c1" "bash" "/b"; tc "c2" "finish" "x"; tc "c3" "boom" "x"].

Definition mixed_start : Sys World unit :=
  sys_of safe_agent [mkResponse None (Some mixed_batch)].

Definition mixed_thought : Sys World unit := (think mixed_start).2.

Definition mixed_before_finish : Sys World unit :=
  (act_loop [tc "c1" "bash" "/b"] [] mixed_thought).2.


(** Batches used below: one without a terminal command, one in which a
    capability is interrupted. *)
Definition plain_batch : list ToolCall :=
  [tc "c1" "bash" "/b"; tc "c2" "nope" "x"; tc "c3" "boom" "x"].

Definition interrupted_batch : list ToolCall :=
  [tc "c1" "bash" "/b"; tc "c2" "halt" "x"; tc "c3" "finish" "x"].

End Demo.

(** ** The project-template tool

    A shallow embedding of [app/tool/get_repo_template.py]: the two
    directory layouts, [_create_directory_structure] and [execute].  The
    file system and the process runner are external: their calls are
    parameters, and every call is recorded in the order it happens. *)
Module RepoTemplate.

Global Instance PyValue_eq_dec : EqDecision PyValue.
Proof. solve_decision. Defined.

(** The dataclass [DirectoryStructure]; [children] defaults to [None]. *)
Record DirectoryStructure : Type := mkDirectoryStructure {
  dir_name : string;
  dir_description : string;
  children : option (list string)
}.

(** [_get_base_structure]: a fresh list at every call. *)
Definition _get_base_structure : list DirectoryStructure :=
  [ mkDirectoryStructure "src" "Source code directory"
      (Some ["assets"; "components"; "hooks"; "pages"; "services"; "store";
             "styles"; "types"; "utils"]);
    mkDirectoryStructure "public" "Public assets directory" None ].

(** [_get_full_structure]: the base list extended in place. *)
Definition _get_full_structure : list DirectoryStructure :=
  let base := _get_base_structure in
  base ++
  [ mkDirectoryStructure "src/layouts" "Layout components" None;
    mkDirectoryStructure "src/constants" "Application constants" None;
    mkDirectoryStructure "src/contexts" "React contexts" None;
    mkDirectoryStructure "src/features" "Feature-based modules" None;
    mkDirectoryStructure "src/i18n" "Internationalization" None;
    mkDirectoryStructure "src/middlewares" "Redux middlewares" None;
    mkDirectoryStructure "tests" "Test files" None;
    mkDirectoryStructure "docs" "Documentation" None ].

(** [path.endswith("/")] *)
Fixpoint ends_with_sep (path : string) : bool :=
  match path with
  | EmptyString => false
  | String c EmptyString => bool_decide (c = "/"%char)
  | String _ rest => ends_with_sep rest
  end.

(** [os.path.join(a, b)] on strings, as [posixpath] computes it: an
    absolute [b] replaces [a]; otherwise [b] is appended, after a separator
    unless [a] is empty or already ends with one. *)
Definition path_join (a b : string) : string :=
  if startswith "/" b then b
  else if bool_decide (a = EmptyString) || ends_with_sep a then a +:+ b
  else a +:+ "/" +:+ b.

Definition TypeError (msg : string) : PyExc :=
  mkExc true ("TypeError: " +:+ msg).

(** [os.path.join] on the values a keyword argument can hold: anything but
    a string is a [TypeError]. *)
Definition os_path_join (a b : PyValue) : outcome string :=
  match a, b with
  | VStr a, VStr b => Return (path_join a b)
  | _, _ => Raise (TypeError "expected str, bytes or os.PathLike object")
  end.

(** [repr] of a string that needs no escaping, and of the layouts. *)
Definition repr_str (s : string) : string := "'" +:+ s +:+ "'".

Definition repr_list (items : list string) : string :=
  "[" +:+ str_join ", " items +:+ "]".

Definition repr_DirectoryStructure (d : DirectoryStructure) : string :=
  "DirectoryStructure(name=" +:+ repr_str (dir_name d) +:+
  ", description=" +:+ repr_str (dir_description d) +:+
  ", children=" +:+
  match children d with
  | None => "None"
  | Some cs => repr_list (map repr_str cs)
  end +:+ ")".

(** The text written to every [index.ts]. *)
Definition index_text : string :=
  "// Export components from this directory" +:+ nl.

(** What [subprocess.run(..., check=True)] does: it completes, or raises
    [CalledProcessError] (whose [str] is the message), or raises something
    else. *)
Inductive run_result : Type :=
  | Completed
  | CalledProcessError (message : string)
  | RunRaised (e : PyExc).

(** The external calls of the tool. *)
Inductive Op : Type :=
  | Subprocess (cmd : string) (cwd : PyValue)
  | Makedirs (path : string)
  | WriteText (path : string) (text : string).

Section Tool.

Context {FS : Type}.

(** [subprocess.run(cmd, shell=True, check=True, cwd=cwd)],
    [os.makedirs(path, exist_ok=True)], and
    [with open(path, 'w') as f: f.write(text)]. *)
Context (subprocess_run : string -> PyValue -> FS -> run_result * FS).
Context (makedirs : string -> FS -> outcome unit * FS).
Context (write_text : string -> string -> FS -> outcome unit * FS).

(** The world of the tool: the file system and the calls made so far. *)
Record ToolWorld : Type := mkToolWorld {
  fs : FS;
  ops : list Op
}.

Definition T (A : Type) : Type := ToolWorld -> outcome A * ToolWorld.

Definition tret {A} (x : A) : T A := fun w => (Return x, w).
Definition tbind {A B} (m : T A) (k : A -> T B) : T B :=
  fun w => match m w with
           | (Return x, w') => k x w'
           | (Raise e, w') => (Raise e, w')
           end.

Definition do_makedirs (path : string) : T unit :=
  fun w => let '(r, f) := makedirs path (fs w) in
           (r, mkToolWorld f (ops w ++ [Makedirs path])).

Definition do_write_text (path text : string) : T unit :=
  fun w => let '(r, f) := write_text path text (fs w) in
           (r, mkToolWorld f (ops w ++ [WriteText path text])).

(** The inner loop of [_create_directory_structure], over the children of
    one item. *)
Fixpoint create_children (dir_path : string) (cs : list string) : T unit :=
  match cs with
  | [] => tret tt
  | child :: rest =>
      let child_path := path_join dir_path child in
      tbind (do_makedirs child_path) (fun _ =>
      tbind (do_write_text (path_join child_path "index.ts") index_text)
            (fun _ =>
      create_children dir_path rest))
  end.

(** [_create_directory_structure]; [if item.children] holds for a list that
    is neither [None] nor empty. *)
Fixpoint _create_directory_structure (base_path : string)
    (structure : list DirectoryStructure) : T unit :=
  match structure with
  | [] => tret tt
  | item :: rest =>
      let dir_path := path_join base_path (dir_name item) in
      tbind (do_makedirs dir_path) (fun _ =>
      tbind (match children item with
             | Some (c :: cs) =>
                 tbind (do_write_text (path_join dir_path "index.ts")
                                      index_text) (fun _ =>
                 create_children dir_path (c :: cs))
             | _ => tret tt
             end) (fun _ =>
      _create_directory_structure base_path rest))
  end.

(** [execute] *)
Definition execute (kwargs : gmap string PyValue) : T PyValue :=
  let project_name := default VNone (kwargs !! "project_name") in
  let path := default (VStr ".") (kwargs !! "path") in
  let template_type := default (VStr "minimal") (kwargs !! "template_type") in
  let create_command :=
    "npm create vite@latest " +:+ py_str project_name +:+
    " -- --template react-ts" in
  fun w =>
    match subprocess_run create_command path (fs w) with
    | (CalledProcessError message, f) =>
        (Return (VStr ("Error creating template: " +:+ message)),
         mkToolWorld f (ops w ++ [Subprocess create_command path]))
    | (RunRaised e, f) =>
        (Raise e, mkToolWorld f (ops w ++ [Subprocess create_command path]))
    | (Completed, f) =>
        let w1 := mkToolWorld f (ops w ++ [Subprocess create_command path]) in
        match os_path_join path project_name with
        | Raise e => (Raise e, w1)
        | Return project_path =>
            let structure :=
              if bool_decide (template_type = VStr "full")
              then _get_full_structure
              else _get_base_structure in
            match _create_directory_structure project_path structure w1 with
            | (Raise e, w2) => (Raise e, w2)
            | (Return _, w2) =>
                (Return
                   (VStr ("Successfully created project: " +:+
                          py_str project_name +:+ nl +:+
                          "Path: " +:+ project_path +:+ nl +:+
                          "Project structure: " +:+
                          repr_list (map repr_DirectoryStructure structure))),
                 w2)
            end
        end
    end.

(** The tool as the registry holds it: [execute] is a coroutine function. *)
Definition GetRepoTemplateTool_execute : Executor ToolWorld :=
  mkExecutor true execute.

(** The calls [_create_directory_structure] makes when none fails. *)
Definition child_plan (dir_path : string) (cs : list string) : list Op :=
  flat_map (fun child =>
              [Makedirs (path_join dir_path child);
               WriteText (path_join (path_join dir_path child) "index.ts")
                         index_text]) cs.

Definition item_plan (base_path : string) (item : DirectoryStructure)
    : list Op :=
  let dir_path := path_join base_path (dir_name item) in
  Makedirs dir_path ::
  match children item with
  | Some (c :: cs) =>
      WriteText (path_join dir_path "index.ts") index_text ::
      child_plan dir_path (c :: cs)
  | _ => []
  end.

Definition plan (base_path : string) (structure : list DirectoryStructure)
    : list Op :=
  flat_map (item_plan base_path) structure.

(** Every file written in [l] is an [index.ts] with the standard text, put
    in a directory that an earlier call of [l] has created. *)
Definition writes_prepared (l : list Op) : Prop :=
  forall i path text,
    l !! i = Some (WriteText path text) ->
    text = index_text /\
    exists d j, j < i /\ l !! j = Some (Makedirs d) /\
                path = path_join d "index.ts".

(** A computation follows a list of calls: it makes them in order and stops
    after the first that fails. *)
Definition follows {A} (m : T A) (pl : list Op) : Prop :=
  forall w r w',
    m w = (r, w') ->
    exists done,
      ops w' = ops w ++ done /\
      done `prefix_of` pl /\
      match r with
      | Return _ => done = pl
      | Raise _ => done <> []
      end.

(** The path a file-system call acts on. *)
Definition op_path (op : Op) : option string :=
  match op with
  | Subprocess _ _ => None
  | Makedirs path => Some path
  | WriteText path _ => Some path
  end.

(** No name of the layout is an absolute path. *)
Definition layout_relative (structure : list DirectoryStructure) : bool :=
  forallb (fun item =>
             negb (startswith "/" (dir_name item)) &&
             forallb (fun child => negb (startswith "/" child))
                     (default [] (children item)))
          structure.

End Tool.

Arguments ToolWorld FS : clear implicits.
Arguments T FS A : clear implicits.

End RepoTemplate.

(** A small file system for the tool: [npm] succeeds or not, directories
    can be created or not, and the directories made are remembered. *)
Module TemplateDemo.

Record FS : Type := mkFS {
  npm_ok : bool;
  read_only : bool;
  made : list string
}.

Definition subprocess_run (cmd : string) (cwd : PyValue) (f : FS)
    : RepoTemplate.run_result * FS :=
  if npm_ok f then (RepoTemplate.Completed, f)
  else (RepoTemplate.CalledProcessError
          "Command returned non-zero exit status 1.", f).

Definition makedirs (path : string) (f : FS) : outcome unit * FS :=
  if read_only f
  then (Raise (mkExc true "PermissionError: [Errno 13] Permission denied"), f)
  else (Return tt, mkFS (npm_ok f) (read_only f) (made f ++ [path])).

Definition write_text (path text : string) (f : FS) : outcome unit * FS :=
  (Return tt, f).

Definition start (ok ro : bool) : RepoTemplate.ToolWorld FS :=
  RepoTemplate.mkToolWorld (mkFS ok ro []) [].

Definition create_directory_structure :=
  RepoTemplate._create_directory_structure makedirs write_text.

Definition execute :=
  RepoTemplate.execute subprocess_run makedirs write_text.

(** An agent whose registry holds the tool under its name. *)
Definition agent : Agent (RepoTemplate.ToolWorld FS) unit :=
  CodeActAgent "system" EmptyString
    [mkTool "get_repo_template" tt
       (RepoTemplate.GetRepoTemplateTool_execute
          subprocess_run makedirs write_text)]
    None.

Definition sys (ok ro : bool) : Sys (RepoTemplate.ToolWorld FS) unit :=
  mkSys (set_state RUNNING agent) (start ok ro) [].

Definition create_app : Cmd :=
  mkCmd (Some "get_repo_template")
        (Some {[ "project_name" := VStr "app" ]}).

End TemplateDemo.

(** ** Properties of the dispatcher *)

Section Properties.

Context {World : Type} {ToolParam : Type}.
Context (bash_execute : string -> World -> outcome string * World).
Context (aask_function :
  list Message -> list ToolParam -> list string -> World ->
  outcome Response * World).
Context (transform_tool_call_to_command : ToolCall -> Cmd).

Local Abbreviation Sys := (Sys World ToolParam).
Local Abbreviation Agent := (Agent World ToolParam).
Local Abbreviation act_loop := (act_loop transform_tool_call_to_command).
Local Abbreviation act := (act transform_tool_call_to_command).
Local Abbreviation think := (think bash_execute aask_function).
Local Abbreviation round :=
  (round bash_execute aask_function transform_tool_call_to_command).
Local Abbreviation rounds :=
  (rounds bash_execute aask_function transform_tool_call_to_command).

Implicit Types (s : Sys) (a : Agent) (cmd : Cmd) (n : string).

Ltac run_monad :=
  unfold _run_command, _is_special_command, try_except_Exception, bind,
    get_self, modify_self, external, ret, raise; simpl.

Lemma run_command_unnamed cmd s :
  command cmd = None \/ command cmd = Some EmptyString ->
  _run_command cmd s =
    (Return ("Error:" +:+ nl +:+ "No command specified."), s).
Proof.
  intros [H | H]; unfold _run_command; rewrite H; reflexivity.
Qed.

Lemma run_command_unregistered cmd s n :
  named cmd n ->
  tool_execution_map (self s) !! n = None ->
  _run_command cmd s =
    (Return ("Error:" +:+ nl +:+ "Command '" +:+ n +:+ "' not found."), s).
Proof.
  intros [Hn Hne] Hmap. run_monad. rewrite Hn.
  rewrite bool_decide_eq_false_2 by assumption.
  rewrite Hmap. reflexivity.
Qed.

Lemma run_command_raised cmd s n tool_obj e w' :
  named cmd n ->
  tool_execution_map (self s) !! n = Some tool_obj ->
  call tool_obj (kwargs_of cmd) (world s) = (Raise e, w') ->
  _run_command cmd s =
    if exc_is_Exception e
    then (Return ("Error:" +:+ nl +:+ exc_traceback e),
          after_call s (self s) n cmd w')
    else (Raise e, after_call s (self s) n cmd w').
Proof.
  intros [Hn Hne] Hmap Hcall. run_monad. rewrite Hn.
  rewrite bool_decide_eq_false_2 by assumption.
  rewrite Hmap. unfold kwargs_of in Hcall.
  destruct (iscoroutinefunction tool_obj); rewrite Hcall; simpl;
    destruct (exc_is_Exception e); reflexivity.
Qed.

Lemma run_command_returned cmd s n tool_obj v w' :
  named cmd n ->
  tool_execution_map (self s) !! n = Some tool_obj ->
  call tool_obj (kwargs_of cmd) (world s) = (Return v, w') ->
  _run_command cmd s =
    (Return (observed_prefix n +:+
             (if truthy v then py_str v else no_output_sentence)),
     after_call s
       (if bool_decide (n ∈ special_tool_commands (self s))
        then set_state FINISHED (self s) else self s)
       n cmd w').
Proof.
  intros [Hn Hne] Hmap Hcall. run_monad. rewrite Hn.
  rewrite bool_decide_eq_false_2 by assumption.
  rewrite Hmap. unfold kwargs_of in Hcall.
  destruct (iscoroutinefunction tool_obj); rewrite Hcall; simpl;
    destruct (bool_decide (n ∈ special_tool_commands (self s)));
    destruct (truthy v); reflexivity.
Qed.

Lemma run_command_dispatched cmd s :
  dispatched cmd s (_run_command cmd s).1 (_run_command cmd s).2.
Proof.
  destruct (command cmd) as [n|] eqn:Hn.
  2: { rewrite run_command_unnamed by auto. constructor. auto. }
  destruct (decide (n = EmptyString)) as [-> | Hne].
  { rewrite run_command_unnamed by auto. constructor. auto. }
  assert (Hnamed : named cmd n) by (split; assumption).
  destruct (tool_execution_map (self s) !! n) as [tool_obj|] eqn:Hmap.
  2: { rewrite (run_command_unregistered cmd s n) by assumption.
       econstructor; eassumption. }
  destruct (call tool_obj (kwargs_of cmd) (world s)) as [[v|e] w'] eqn:Hcall.
  - rewrite (run_command_returned cmd s n tool_obj v w') by assumption.
    econstructor; eassumption.
  - rewrite (run_command_raised cmd s n tool_obj e w') by assumption.
    destruct (exc_is_Exception e) eqn:He; simpl.
    + eapply dispatched_contained; eassumption.
    + eapply dispatched_escaped; eassumption.
Qed.

Lemma run_command_inv cmd s r s' :
  _run_command cmd s = (r, s') -> dispatched cmd s r s'.
Proof.
  intros H. pose proof (run_command_dispatched cmd s) as D.
  rewrite H in D. exact D.
Qed.

(** A dispatch assigns no field of the agent but, possibly, [state]. *)
Lemma dispatched_self cmd s r s' :
  dispatched cmd s r s' ->
  self s' = self s \/ self s' = set_state FINISHED (self s).
Proof.
  intros D; destruct D; simpl; auto.
  destruct (bool_decide _); auto.
Qed.

Lemma dispatched_returns cmd s r s' :
  raises_only_Exception (self s) ->
  dispatched cmd s r s' -> exists obs, r = Return obs.
Proof.
  intros Hsafe D; destruct D; eauto.
  match goal with
  | Hm : _ !! _ = Some _, Hc : call _ _ _ = _, He : _ = false |- _ =>
      rewrite (Hsafe _ _ _ _ _ _ Hm Hc) in He; discriminate
  end.
Qed.

(** ** Properties of the batch loop *)

Lemma act_loop_cons c rest outputs s :
  act_loop (c :: rest) outputs s =
    match _run_command (transform_tool_call_to_command c) s with
    | (Return output, s1) =>
        act_loop rest (outputs ++ [output])
          (mkSys (add_message
                    (tool_message output (call_id c) (function_name c))
                    (self s1))
                 (world s1) (calls s1))
    | (Raise e, s1) => (Raise e, s1)
    end.
Proof.
  simpl. unfold bind at 1.
  destruct (_run_command _ s) as [[output|e] s1]; reflexivity.
Qed.

Lemma act_loop_app pre post outputs s :
  act_loop (pre ++ post) outputs s =
    match act_loop pre outputs s with
    | (Return outputs', s1) => act_loop post outputs' s1
    | (Raise e, s1) => (Raise e, s1)
    end.
Proof.
  revert outputs s. induction pre as [|c pre IH]; intros outputs s.
  - reflexivity.
  - rewrite <- app_comm_cons, !act_loop_cons.
    destruct (_run_command _ s) as [[output|e] s1]; [apply IH | reflexivity].
Qed.

Lemma unchanged_config_refl a : unchanged_config a a.
Proof. constructor; reflexivity. Qed.

Lemma unchanged_config_trans a1 a2 a3 :
  unchanged_config a1 a2 -> unchanged_config a2 a3 -> unchanged_config a1 a3.
Proof.
  intros [] []; constructor; etransitivity; eassumption.
Qed.

Lemma raises_only_Exception_config a a' :
  unchanged_config a a' -> raises_only_Exception a -> raises_only_Exception a'.
Proof.
  intros Hc H n tool_obj kw w e w' Hmap. apply (H n tool_obj kw w e w').
  rewrite <- (uc_tool_execution_map _ _ Hc). exact Hmap.
Qed.

Lemma answers_length cmds obs :
  length obs = length cmds -> length (answers cmds obs) = length cmds.
Proof.
  unfold answers. rewrite length_zip_with. lia.
Qed.

Lemma answers_ids cmds obs :
  length obs = length cmds ->
  map tool_call_id (answers cmds obs) = map (fun c => Some (call_id c)) cmds.
Proof.
  revert obs. induction cmds as [|c cmds IH]; intros [|o obs] Hlen;
    simpl in *; try discriminate; try reflexivity.
  f_equal. apply IH. lia.
Qed.

Lemma answers_names cmds obs :
  length obs = length cmds ->
  map name (answers cmds obs) = map (fun c => Some (function_name c)) cmds.
Proof.
  revert obs. induction cmds as [|c cmds IH]; intros [|o obs] Hlen;
    simpl in *; try discriminate; try reflexivity.
  f_equal. apply IH. lia.
Qed.

Lemma answers_roles cmds obs :
  Forall (fun m => role m = tool) (answers cmds obs).
Proof.
  revert obs. induction cmds as [|c cmds IH]; intros [|o obs]; simpl;
    constructor; auto.
Qed.

Lemma answers_contents cmds obs :
  length obs = length cmds ->
  map content (answers cmds obs) = map Some obs.
Proof.
  revert obs. induction cmds as [|c cmds IH]; intros [|o obs] Hlen;
    simpl in *; try discriminate; try reflexivity.
  f_equal. apply IH. lia.
Qed.

(** What a batch leaves behind when every capability raises within
    [Exception]: the loop runs to its end, with one observation per
    command, in order, and one tool message per observation appended to the
    log; no other field of the agent is assigned but [state], which can only
    move to [FINISHED]. *)
Lemma act_loop_effect cmds : forall outputs s,
  raises_only_Exception (self s) ->
  exists obs s',
    act_loop cmds outputs s = (Return (outputs ++ obs), s') /\
    length obs = length cmds /\
    messages (self s') = messages (self s) ++ answers cmds obs /\
    unchanged_config (self s) (self s') /\
    (state (self s') = state (self s) \/ state (self s') = FINISHED).
Proof.
  induction cmds as [|c cmds IH]; intros outputs s Hsafe.
  - exists [], s. simpl. unfold ret. rewrite !app_nil_r.
    split_and!; auto using unchanged_config_refl.
  - rewrite act_loop_cons.
    destruct (_run_command (transform_tool_call_to_command c) s)
      as [r s1] eqn:Hrun.
    apply run_command_inv in Hrun.
    destruct (dispatched_returns _ _ _ _ Hsafe Hrun) as [output ->].
    pose proof (dispatched_self _ _ _ _ Hrun) as Hself.
    set (s2 := mkSys _ (world s1) (calls s1)).
    assert (Hc : unchanged_config (self s) (self s2)).
    { destruct Hself as [E | E]; subst s2; simpl; rewrite E;
        constructor; reflexivity. }
    assert (Hm : messages (self s2) =
                 messages (self s) ++
                 [tool_message output (call_id c) (function_name c)]).
    { destruct Hself as [E | E]; subst s2; simpl; rewrite E; reflexivity. }
    assert (Hst : state (self s2) = state (self s) \/
                  state (self s2) = FINISHED).
    { destruct Hself as [E | E]; subst s2; simpl; rewrite E; auto. }
    destruct (IH (outputs ++ [output]) s2) as (obs & s' & Hloop & Hlen & Hmsgs & Hc' & Hst').
    { eapply raises_only_Exception_config; eassumption. }
    exists (output :: obs), s'. rewrite Hloop.
    split_and!.
    + by rewrite <- app_assoc.
    + simpl. lia.
    + rewrite Hmsgs, Hm, <- app_assoc. reflexivity.
    + eapply unchanged_config_trans; eassumption.
    + destruct Hst' as [-> | ->]; auto.
Qed.

(** A batch never takes the agent out of [FINISHED]. *)
Lemma act_loop_stays_finished cmds outputs s :
  raises_only_Exception (self s) ->
  state (self s) = FINISHED ->
  state (self (act_loop cmds outputs s).2) = FINISHED.
Proof.
  intros Hsafe Hfin.
  destruct (act_loop_effect cmds outputs s Hsafe)
    as (obs & s' & -> & _ & _ & _ & [E | E]); simpl; congruence.
Qed.

(** [act] on the pending batch. *)
Lemma act_effect s :
  raises_only_Exception (self s) ->
  exists obs s',
    act s = (Return (match commands (self s) with
                     | [] => "No commands to execute"
                     | _ => str_join (nl +:+ nl) obs
                     end), s') /\
    act_loop (commands (self s)) [] s = (Return obs, s') /\
    length obs = length (commands (self s)) /\
    messages (self s') =
      messages (self s) ++ answers (commands (self s)) obs /\
    unchanged_config (self s) (self s') /\
    (state (self s') = state (self s) \/ state (self s') = FINISHED).
Proof.
  intros Hsafe.
  destruct (act_loop_effect (commands (self s)) [] s Hsafe)
    as (obs & s' & Hloop & Hlen & Hmsgs & Hc & Hst).
  exists obs, s'. simpl in Hloop. split_and!; try assumption.
  unfold act, bind, get_self, ret.
  destruct (commands (self s)) as [|c cmds] eqn:Hcmds.
  - simpl in Hloop. unfold ret in Hloop. congruence.
  - rewrite Hloop. reflexivity.
Qed.

(** ** Properties of a decision round *)

Lemma think_returned s wd w1 msgs response w2 :
  bash_execute "pwd" (world s) = (Return wd, w1) ->
  instruction_view (set_working_dir wd (self s)) = Return msgs ->
  aask_function msgs (get_tool_params (self s)) [system_prompt (self s)] w1
    = (Return response, w2) ->
  think s =
    (Return (bool_decide (default [] (response_tool_calls response) <> [])),
     after_think s wd msgs response w2).
Proof.
  intros Hpwd Hview Hask.
  unfold think, bind, external, modify_self, get_self, ret, raise. simpl.
  rewrite Hpwd. simpl.
  unfold instruction_view in Hview. simpl in Hview.
  destruct (bool_decide (next_step_prompt (self s) = EmptyString)).
  - injection Hview as <-. unfold get_tool_params in *. simpl.
    rewrite Hask. unfold after_think. simpl.
    rewrite <- app_assoc. reflexivity.
  - destruct (py_format (next_step_prompt (self s)) wd) as [text|e];
      [|discriminate].
    injection Hview as <-. unfold get_tool_params in *. simpl.
    rewrite Hask. unfold after_think. simpl.
    rewrite <- app_assoc. reflexivity.
Qed.

Lemma round_no_commands s s1 :
  think s = (Return false, s1) ->
  round s = (Return (Some NoCommandsRequested), stepped s1).
Proof.
  intros H. unfold round. rewrite H. reflexivity.
Qed.

Lemma round_batch s s1 out s2 :
  think s = (Return true, s1) ->
  act s1 = (Return out, s2) ->
  round s =
    (Return (if bool_decide (state (self s2) = FINISHED)
             then Some TerminalCommandFired else None),
     stepped s2).
Proof.
  intros Ht Ha. unfold round. rewrite Ht.
  unfold bind at 1. rewrite Ha.
  unfold bind, increment_step, modify_self, get_self, ret. simpl.
  destruct (bool_decide (state (self s2) = FINISHED)); reflexivity.
Qed.

Lemma rounds_stop budget s reason s' :
  round s = (Return (Some reason), s') ->
  rounds (S budget) s = (Return reason, s').
Proof.
  intros H. simpl. unfold bind. rewrite H. reflexivity.
Qed.

Lemma rounds_continue budget s s' :
  round s = (Return None, s') ->
  rounds (S budget) s = rounds budget s'.
Proof.
  intros H. simpl. unfold bind. rewrite H. reflexivity.
Qed.

Lemma startswith_error tb :
  startswith ("Error:" +:+ nl) ("Error:" +:+ nl +:+ tb) = true.
Proof. unfold startswith, nl. simpl. destruct tb; reflexivity. Qed.

Lemma startswith_error_observed n rest :
  startswith ("Error:" +:+ nl) (observed_prefix n +:+ rest) = false.
Proof. reflexivity. Qed.

(** ** The dispatcher: failure containment and observation formats *)

(** C1.  When the registered capability of a command raises an exception
    (an instance of [Exception], which is what the handler catches), the
    dispatcher does not raise: it returns the observation made of
    ["Error:"], a line feed and the full traceback; and the batch loop goes
    on, appending that observation as the tool message of the command and
    dispatching the commands that follow it. *)
Theorem C1_tool_exception_contained s (c : ToolCall) n tool_obj e w' :
  named (transform_tool_call_to_command c) n ->
  tool_execution_map (self s) !! n = Some tool_obj ->
  call tool_obj (kwargs_of (transform_tool_call_to_command c)) (world s)
    = (Raise e, w') ->
  exc_is_Exception e = true ->
  _run_command (transform_tool_call_to_command c) s =
    (Return ("Error:" +:+ nl +:+ exc_traceback e),
     after_call s (self s) n (transform_tool_call_to_command c) w') /\
  startswith ("Error:" +:+ nl) ("Error:" +:+ nl +:+ exc_traceback e) = true /\
  forall rest outputs,
    act_loop (c :: rest) outputs s =
      act_loop rest (outputs ++ ["Error:" +:+ nl +:+ exc_traceback e])
        (after_call s
           (add_message
              (tool_message ("Error:" +:+ nl +:+ exc_traceback e)
                            (call_id c) (function_name c))
              (self s))
           n (transform_tool_call_to_command c) w').
Proof.
  intros Hn Hmap Hcall He.
  pose proof (run_command_raised _ s n tool_obj e w' Hn Hmap Hcall) as Hrun.
  rewrite He in Hrun.
  split_and!.
  - exact Hrun.
  - apply startswith_error.
  - intros rest outputs. rewrite act_loop_cons, Hrun. reflexivity.
Qed.

(** C4.  A command without a name (the key is missing, or the name is the
    empty string) is answered with ["Error:\nNo command specified."], and a
    command whose name is not in the registry with
    ["Error:\nCommand '<name>' not found."]; in both cases the dispatcher
    returns, and the whole state, the Agent State included, is as before. *)
Theorem C4_unknown_command_is_an_observation cmd s :
  ((command cmd = None \/ command cmd = Some EmptyString) ->
   _run_command cmd s =
     (Return ("Error:" +:+ nl +:+ "No command specified."), s)) /\
  (forall n,
     named cmd n ->
     tool_execution_map (self s) !! n = None ->
     _run_command cmd s =
       (Return ("Error:" +:+ nl +:+ "Command '" +:+ n +:+ "' not found."), s)).
Proof.
  split.
  - apply run_command_unnamed.
  - intros n. apply run_command_unregistered.
Qed.

(** C5, as the code has it.  When the registered capability returns, the
    observation is ["Observed result of command `<name>` executed by
    user:"], a line feed, and then [str(result)] if the result is truthy,
    or else the fixed sentence ["The command ran successfully and did not
    produce any output."]. *)
Theorem C5_observation_format cmd s n tool_obj v w' :
  named cmd n ->
  tool_execution_map (self s) !! n = Some tool_obj ->
  call tool_obj (kwargs_of cmd) (world s) = (Return v, w') ->
  exists s',
    _run_command cmd s =
      (Return
         (("Observed result of command `" +:+ n +:+ "` executed by user:"
           +:+ nl)
          +:+ (if truthy v then py_str v
               else "The command ran successfully and did not produce any output.")),
       s').
Proof.
  intros Hn Hmap Hcall. eexists.
  apply (run_command_returned cmd s n tool_obj v w' Hn Hmap Hcall).
Qed.

(** C6.  The special-command check leaves the state as it is, and it
    returns true exactly when the command has a name and that name is a
    member of the agent's [special_tool_commands]; that list is
    [["finish"]] for a [CodeActAgent] constructed without one, and the name
    of the completion tool for a [MidwitAgent]. *)
Theorem C6_special_command_is_membership cmd s :
  (_is_special_command cmd s).2 = s /\
  ((_is_special_command cmd s).1 = Return true <->
   exists n, command cmd = Some n /\ n ∈ special_tool_commands (self s)) /\
  (forall system next_step (tool_list : list (Tool World ToolParam)),
     special_tool_commands (CodeActAgent system next_step tool_list None)
       = ["finish"]) /\
  (forall attempt_completion n,
     n ∈ MidwitAgent_special_tool_commands attempt_completion <->
     n = attempt_completion).
Proof.
  split_and!.
  - unfold _is_special_command. destruct (command cmd); reflexivity.
  - unfold _is_special_command, bind, get_self, ret, raise.
    destruct (command cmd) as [n|]; simpl.
    + split.
      * intros H. exists n. split; [reflexivity|].
        injection H as H. by apply bool_decide_eq_true in H.
      * intros (n' & [= <-] & Hin). f_equal. by apply bool_decide_eq_true.
    + split; [discriminate | intros (n' & [=] & _)].
  - reflexivity.
  - intros attempt_completion n.
    unfold MidwitAgent_special_tool_commands. by rewrite list_elem_of_singleton.
Qed.

(** C10.  A dispatch that produces an error, whether an observation that
    starts with the error marker or an exception that escapes, leaves every
    field of the agent as it was; the Agent State changes only when the
    command is terminal, registered, and its capability returned, and then
    it becomes [FINISHED]; in particular a terminal command whose
    capability raises does not finish the agent. *)
Theorem C10_error_dispatch_keeps_state cmd s r s' :
  _run_command cmd s = (r, s') ->
  ((forall obs, r = Return obs -> startswith ("Error:" +:+ nl) obs = true) ->
   self s' = self s) /\
  (state (self s') <> state (self s) ->
   state (self s') = FINISHED /\
   exists n tool_obj v w',
     named cmd n /\ n ∈ special_tool_commands (self s) /\
     tool_execution_map (self s) !! n = Some tool_obj /\
     call tool_obj (kwargs_of cmd) (world s) = (Return v, w')) /\
  (forall n tool_obj e w',
     named cmd n -> n ∈ special_tool_commands (self s) ->
     tool_execution_map (self s) !! n = Some tool_obj ->
     call tool_obj (kwargs_of cmd) (world s) = (Raise e, w') ->
     state (self s') = state (self s)).
Proof.
  intros Hrun. split_and!.
  - intros Herr. apply run_command_inv in Hrun.
    destruct Hrun; try reflexivity.
    specialize (Herr _ eq_refl).
    rewrite startswith_error_observed in Herr. discriminate.
  - intros Hchg. apply run_command_inv in Hrun.
    destruct Hrun; simpl in Hchg; try congruence.
    destruct (bool_decide (n ∈ special_tool_commands (self s))) eqn:Hin;
      simpl in *; [|congruence].
    split; [reflexivity|].
    apply bool_decide_eq_true in Hin. eauto 10.
  - intros n tool_obj e w' Hn Hin Hmap Hcall.
    rewrite (run_command_raised cmd s n tool_obj e w' Hn Hmap Hcall) in Hrun.
    destruct (exc_is_Exception e); injection Hrun as <- <-; reflexivity.
Qed.

(** ** The batch: one tool message per command *)

(** C3.  [act] appends to the log exactly one tool message per command of
    the batch: as many tool messages as commands, the correlation id of
    each equal to the id of the command it answers, in the order of the
    commands, each carrying the observation of its command. *)
Theorem C3_one_tool_message_per_command s :
  raises_only_Exception (self s) ->
  exists out obs s',
    act s = (Return out, s') /\
    messages (self s') = messages (self s) ++ answers (commands (self s)) obs /\
    length (answers (commands (self s)) obs) = length (commands (self s)) /\
    map tool_call_id (answers (commands (self s)) obs)
      = map (fun c => Some (call_id c)) (commands (self s)) /\
    map content (answers (commands (self s)) obs) = map Some obs /\
    Forall (fun m => role m = tool) (answers (commands (self s)) obs).
Proof.
  intros Hsafe.
  destruct (act_effect s Hsafe) as (obs & s' & Hact & _ & Hlen & Hmsgs & _ & _).
  eexists _, obs, s'. split_and!.
  - exact Hact.
  - exact Hmsgs.
  - by apply answers_length.
  - by apply answers_ids.
  - by apply answers_contents.
  - apply answers_roles.
Qed.

(** C2, as the code has it.  In a round whose batch holds a terminal command
    that is registered and whose capability returns when it is reached:
    the Agent State is [FINISHED] as soon as that command has been
    dispatched, before the commands after it run; all the commands of the
    batch are dispatched and each gets its tool message; the state is still
    [FINISHED] when the batch ends; and the run ends with this round. *)
Theorem C2_terminal_command_in_batch
    s0 s pre (c : ToolCall) post n tool_obj outs_pre s_pre v w' budget :
  think s0 = (Return true, s) ->
  raises_only_Exception (self s) ->
  commands (self s) = pre ++ c :: post ->
  named (transform_tool_call_to_command c) n ->
  n ∈ special_tool_commands (self s) ->
  tool_execution_map (self s) !! n = Some tool_obj ->
  act_loop pre [] s = (Return outs_pre, s_pre) ->
  call tool_obj (kwargs_of (transform_tool_call_to_command c)) (world s_pre)
    = (Return v, w') ->
  exists out obs outs_mid s_mid s',
    act_loop (pre ++ [c]) [] s = (Return outs_mid, s_mid) /\
    state (self s_mid) = FINISHED /\
    length (messages (self s_mid))
      = length (messages (self s)) + length pre + 1 /\
    act_loop (pre ++ c :: post) [] s = act_loop post outs_mid s_mid /\
    act s = (Return out, s') /\
    length obs = length (pre ++ c :: post) /\
    messages (self s')
      = messages (self s) ++ answers (pre ++ c :: post) obs /\
    state (self s') = FINISHED /\
    rounds (S budget) s0 = (Return TerminalCommandFired, stepped s').
Proof.
  intros Hthink Hsafe Hcmds Hn Hin Hmap Hpre Hcall.
  (* the commands before the terminal one *)
  destruct (act_loop_effect pre [] s Hsafe)
    as (obs_pre & s_pre' & Hpre' & Hlen_pre & Hmsg_pre & Hc_pre & _).
  rewrite Hpre in Hpre'. injection Hpre' as -> <-.
  assert (Hmap_pre : tool_execution_map (self s_pre) !! n = Some tool_obj)
    by (rewrite (uc_tool_execution_map _ _ Hc_pre); exact Hmap).
  assert (Hin_pre : n ∈ special_tool_commands (self s_pre))
    by (rewrite (uc_special_tool_commands _ _ Hc_pre); exact Hin).
  (* the terminal command itself *)
  pose proof (run_command_returned _ s_pre n tool_obj v w' Hn Hmap_pre Hcall)
    as Hrun.
  rewrite bool_decide_eq_true_2 in Hrun by exact Hin_pre.
  pose proof (act_loop_app pre [c] [] s) as Hmid.
  rewrite Hpre, act_loop_cons, Hrun in Hmid. simpl in Hmid. unfold ret in Hmid.
  (* the whole batch *)
  destruct (act_effect s Hsafe)
    as (obs & s' & Hact & Hloop & Hlen & Hmsgs & _ & _).
  rewrite Hcmds in Hact, Hloop, Hlen, Hmsgs.
  pose proof (act_loop_app (pre ++ [c]) post [] s) as Hall.
  rewrite <- app_assoc in Hall. simpl in Hall. rewrite Hmid in Hall.
  match type of Hmid with
  | _ = (Return ?o, ?m) => set (outs_mid := o) in *; set (s_mid := m) in *
  end.
  assert (Hsafe_mid : raises_only_Exception (self s_mid)).
  { eapply raises_only_Exception_config; [|exact Hsafe].
    destruct Hc_pre. constructor; simpl; assumption. }
  assert (Hfin : state (self s') = FINISHED).
  { pose proof (act_loop_stays_finished post outs_mid s_mid Hsafe_mid eq_refl)
      as Hstay.
    rewrite <- Hall, Hloop in Hstay. exact Hstay. }
  assert (Hact' : act s = (Return (str_join (nl +:+ nl) obs), s')).
  { destruct (pre ++ c :: post) eqn:E; [by destruct pre|]. exact Hact. }
  exists (str_join (nl +:+ nl) obs), obs, outs_mid, s_mid, s'. split_and!.
  - exact Hmid.
  - reflexivity.
  - subst s_mid. simpl.
    rewrite Hmsg_pre, !length_app, (answers_length _ _ Hlen_pre).
    simpl. lia.
  - exact Hall.
  - exact Hact'.
  - exact Hlen.
  - exact Hmsgs.
  - exact Hfin.
  - apply rounds_stop.
    rewrite (round_batch s0 s _ s' Hthink Hact').
    rewrite bool_decide_eq_true_2 by exact Hfin. reflexivity.
Qed.

(** ** The decision round *)

(** C7.  Once the shell has answered, the instruction is formatted and the
    model has responded, [think] returns, and the log has grown by exactly
    one message: the assistant message carrying the content and the tool
    calls of the response, whatever they are ([None] and the empty list
    included). *)
Theorem C7_assistant_message_always_logged s wd w1 msgs response w2 :
  bash_execute "pwd" (world s) = (Return wd, w1) ->
  instruction_view (set_working_dir wd (self s)) = Return msgs ->
  aask_function msgs (get_tool_params (self s)) [system_prompt (self s)] w1
    = (Return response, w2) ->
  exists r s',
    think s = (Return r, s') /\
    messages (self s') =
      messages (self s) ++
      [mkMessage assistant (response_content response)
                 (response_tool_calls response) None None] /\
    length (messages (self s')) = S (length (messages (self s))).
Proof.
  intros Hpwd Hview Hask.
  eexists _, _. split_and!.
  - apply (think_returned s wd w1 msgs response w2 Hpwd Hview Hask).
  - reflexivity.
  - simpl. rewrite length_app. simpl. lia.
Qed.

(** C8.  In a round in which the model requests no command ([tool_calls]
    is [None] or the empty list): [think] returns false; [act], were it
    called, would append nothing; the round appends the assistant message
    and no tool message; and the run ends with this round. *)
Theorem C8_no_commands_round_terminates s wd w1 msgs response w2 budget :
  bash_execute "pwd" (world s) = (Return wd, w1) ->
  instruction_view (set_working_dir wd (self s)) = Return msgs ->
  aask_function msgs (get_tool_params (self s)) [system_prompt (self s)] w1
    = (Return response, w2) ->
  default [] (response_tool_calls response) = [] ->
  think s = (Return false, after_think s wd msgs response w2) /\
  act (after_think s wd msgs response w2)
    = (Return "No commands to execute", after_think s wd msgs response w2) /\
  rounds (S budget) s
    = (Return NoCommandsRequested,
       stepped (after_think s wd msgs response w2)) /\
  messages (self (stepped (after_think s wd msgs response w2)))
    = messages (self s) ++
      [mkMessage assistant (response_content response)
                 (response_tool_calls response) None None].
Proof.
  intros Hpwd Hview Hask Hnone.
  pose proof (think_returned s wd w1 msgs response w2 Hpwd Hview Hask)
    as Hthink.
  rewrite Hnone in Hthink.
  rewrite bool_decide_eq_false_2 in Hthink by (intros H; by apply H).
  split_and!.
  - exact Hthink.
  - unfold act, bind, get_self, ret. simpl. rewrite Hnone. reflexivity.
  - apply rounds_stop, round_no_commands, Hthink.
  - reflexivity.
Qed.

(** X20.  In [CodeActAgent.think] the directory is asked for first, the model is
    consulted next, with the log followed by the instruction formatted with
    the directory just obtained; the instruction is not in what the round
    adds to the log, and the template is left as it was. *)
Lemma think_instruction_fresh_and_transient s wd w1 text response w2 :
  bash_execute "pwd" (world s) = (Return wd, w1) ->
  next_step_prompt (self s) <> EmptyString ->
  py_format (next_step_prompt (self s)) wd = Return text ->
  aask_function (messages (self s) ++ [user_message text])
    (get_tool_params (self s)) [system_prompt (self s)] w1
    = (Return response, w2) ->
  exists r s',
    think s = (Return r, s') /\
    calls s' =
      calls s ++
      [EvBash "pwd";
       EvAsk (messages (self s) ++ [user_message text])
             (get_tool_params (self s)) [system_prompt (self s)]] /\
    working_dir (self s') = wd /\
    next_step_prompt (self s') = next_step_prompt (self s) /\
    messages (self s') =
      messages (self s) ++
      [from_tool_calls (response_content response)
                       (response_tool_calls response)].
Proof.
  intros Hpwd Hne Hfmt Hask.
  eexists _, _. split_and!.
  - apply (think_returned s wd w1
             (messages (self s) ++ [user_message text]) response w2 Hpwd);
      [|exact Hask].
    unfold instruction_view. simpl.
    rewrite bool_decide_eq_false_2 by exact Hne.
    rewrite Hfmt. reflexivity.
  - reflexivity.
  - reflexivity.
  - reflexivity.
  - reflexivity.
Qed.

(** [SWEAgent.think] hands to its parent an agent whose instruction
    template has been replaced by the formatted text. *)
Lemma SWEAgent_think_overwrites_template (super_think : M World ToolParam bool)
    s wd w1 text :
  bash_execute "pwd" (world s) = (Return wd, w1) ->
  py_format (next_step_prompt (self s)) wd = Return text ->
  SWEAgent_think bash_execute super_think s =
    super_think
      (mkSys (set_next_step_prompt text (set_working_dir wd (self s)))
             w1 (calls s ++ [EvBash "pwd"])).
Proof.
  intros Hpwd Hfmt.
  unfold SWEAgent_think, bind, external, modify_self, get_self, raise. simpl.
  rewrite Hpwd. simpl. rewrite Hfmt. reflexivity.
Qed.

Lemma append_snoc (acc : string) (c : ascii) (rest : string) :
  (acc +:+ String c EmptyString) +:+ rest = acc +:+ String c rest.
Proof.
  induction acc as [|c' acc IH]; [reflexivity|].
  change (String c' ((acc +:+ String c EmptyString) +:+ rest)
          = String c' (acc +:+ String c rest)).
  by f_equal.
Qed.

(** Formatting a text without braces gives the text back, whatever the
    directory. *)
Lemma py_format_go_brace_free (t current_dir acc : string) :
  brace_free t = true ->
  py_format_go t None current_dir acc = Return (acc +:+ t).
Proof.
  revert acc. induction t as [|c t IH]; intros acc Hfree; simpl in *.
  - f_equal. induction acc as [|c' acc IHacc]; [reflexivity|].
    change (String c' acc = String c' (acc +:+ EmptyString)). by f_equal.
  - apply andb_prop in Hfree as [Hc Hfree]. apply andb_prop in Hc as [Ho Hcl].
    destruct (bool_decide (c = "{"%char)); [discriminate|].
    destruct (bool_decide (c = "}"%char)); [discriminate|].
    rewrite IH by exact Hfree. by rewrite append_snoc.
Qed.

Lemma py_format_brace_free (t current_dir : string) :
  brace_free t = true -> py_format t current_dir = Return t.
Proof. apply py_format_go_brace_free. Qed.

(** X13.  Once the instruction template of a [SWEAgent] holds a text without
    braces, as it does after a round has assigned the formatted text to it,
    [SWEAgent.think] keeps that text as the instruction of the round,
    whatever directory the shell reports. *)
Lemma SWEAgent_think_keeps_old_instruction
    (super_think : M World ToolParam bool) s wd w1 :
  bash_execute "pwd" (world s) = (Return wd, w1) ->
  brace_free (next_step_prompt (self s)) = true ->
  SWEAgent_think bash_execute super_think s =
    super_think
      (mkSys (set_next_step_prompt (next_step_prompt (self s))
                (set_working_dir wd (self s)))
             w1 (calls s ++ [EvBash "pwd"])).
Proof.
  intros Hpwd Hfree.
  apply SWEAgent_think_overwrites_template; [exact Hpwd|].
  by apply py_format_brace_free.
Qed.

End Properties.

(** ** The properties on the concrete environment *)

Lemma safe_agent_raises_only_Exception :
  raises_only_Exception Demo.safe_agent.
Proof.
  intros n tool_obj kw w e w' Hmap Hcall.
  unfold Demo.safe_agent, Demo.agent_of, CodeActAgent, set_tool_execution_map,
    set_tool_map in Hmap.
  cbn [tool_execution_map tools foldl tool_name execute Demo.bash_tool
       Demo.finish_tool Demo.failing_tool] in Hmap.
  apply lookup_insert_Some in Hmap as [[<- <-] | [_ Hmap]].
  { simpl in Hcall. by simplify_eq. }
  apply lookup_insert_Some in Hmap as [[<- <-] | [_ Hmap]].
  { simpl in Hcall. discriminate. }
  apply lookup_insert_Some in Hmap as [[<- <-] | [_ Hmap]].
  { simpl in Hcall.
    destruct (kw !! "command") as [[| | |d]|]; by simplify_eq. }
  rewrite lookup_empty in Hmap. discriminate.
Qed.

Lemma C1_tool_exception_contained_witness :
  (named (Demo.transform_tool_call_to_command (Demo.tc "c3" "boom" "x")) "boom" /\
   exc_is_Exception
     (mkExc true "Traceback (most recent call last): RuntimeError: boom")
     = true) /\
  (Demo.run_command
     (Demo.transform_tool_call_to_command (Demo.tc "c3" "boom" "x"))
     (Demo.pending [])).1
  = Return ("Error:" +:+ nl +:+
            "Traceback (most recent call last): RuntimeError: boom").
Proof.
  assert (Hn : named (Demo.transform_tool_call_to_command
                        (Demo.tc "c3" "boom" "x")) "boom")
    by (split; [reflexivity | discriminate]).
  split; [split; [exact Hn | reflexivity]|].
  destruct (C1_tool_exception_contained Demo.transform_tool_call_to_command
              (Demo.pending []) (Demo.tc "c3" "boom" "x") "boom"
              (execute Demo.failing_tool)
              (mkExc true "Traceback (most recent call last): RuntimeError: boom")
              (Demo.mkWorld "/a" [])
              Hn eq_refl eq_refl eq_refl) as [H _].
  unfold Demo.run_command. rewrite H. reflexivity.
Defined.

Lemma C4_unknown_command_is_an_observation_witness :
  Demo.run_command (mkCmd (Some "unknown_tool") (Some {[ "x" := VInt 1 ]}))
                   (Demo.pending [])
  = (Return ("Error:" +:+ nl +:+ "Command 'unknown_tool' not found."),
     Demo.pending []) /\
  Demo.run_command (mkCmd None None) (Demo.pending [])
  = (Return ("Error:" +:+ nl +:+ "No command specified."), Demo.pending []) /\
  state (self (Demo.pending [])) = RUNNING.
Proof.
  split_and!.
  - apply (proj2 (C4_unknown_command_is_an_observation
                    (mkCmd (Some "unknown_tool") (Some {[ "x" := VInt 1 ]}))
                    (Demo.pending [])) "unknown_tool").
    + split; [reflexivity | discriminate].
    + reflexivity.
  - apply (proj1 (C4_unknown_command_is_an_observation
                    (mkCmd None None) (Demo.pending []))).
    left; reflexivity.
  - reflexivity.
Defined.

Lemma C5_observation_format_witness :
  named (mkCmd (Some "finish") None) "finish" /\
  (Demo.run_command (mkCmd (Some "finish") None) (Demo.pending [])).1
  = Return ("Observed result of command `finish` executed by user:" +:+ nl
            +:+ "done") /\
  (Demo.run_command (mkCmd (Some "bash") (Some {[ "command" := VStr "/b" ]}))
                    (Demo.pending [])).1
  = Return ("Observed result of command `bash` executed by user:" +:+ nl
            +:+ "The command ran successfully and did not produce any output.").
Proof.
  assert (Hn : named (mkCmd (Some "finish") None) "finish")
    by (split; [reflexivity | discriminate]).
  assert (Hn' : named (mkCmd (Some "bash")
                         (Some {[ "command" := VStr "/b" ]})) "bash")
    by (split; [reflexivity | discriminate]).
  assert (Hm : tool_execution_map (self (Demo.pending [])) !! "finish"
               = Some (execute Demo.finish_tool))
    by (vm_compute; reflexivity).
  assert (Hm' : tool_execution_map (self (Demo.pending [])) !! "bash"
                = Some (execute Demo.bash_tool))
    by (vm_compute; reflexivity).
  assert (Hc : call (execute Demo.finish_tool)
                 (kwargs_of (mkCmd (Some "finish") None))
                 (world (Demo.pending []))
               = (Return (VStr "done"), Demo.mkWorld "/a" []))
    by reflexivity.
  assert (Hc' : call (execute Demo.bash_tool)
                  (kwargs_of (mkCmd (Some "bash")
                                (Some {[ "command" := VStr "/b" ]})))
                  (world (Demo.pending []))
                = (Return (VStr EmptyString), Demo.mkWorld "/b" []))
    by (vm_compute; reflexivity).
  split_and!; [exact Hn | |].
  - destruct (C5_observation_format (mkCmd (Some "finish") None)
                (Demo.pending []) "finish" (execute Demo.finish_tool)
                (VStr "done") (Demo.mkWorld "/a" []) Hn Hm Hc)
      as [s' H].
    unfold Demo.run_command. rewrite H. reflexivity.
  - destruct (C5_observation_format
                (mkCmd (Some "bash") (Some {[ "command" := VStr "/b" ]}))
                (Demo.pending []) "bash" (execute Demo.bash_tool)
                (VStr EmptyString) (Demo.mkWorld "/b" []) Hn' Hm' Hc')
      as [s' H].
    unfold Demo.run_command. rewrite H. reflexivity.
Defined.

(** The claim C5 as worded gives the prefix ["Observed result of command
    '<name>':"]; on the registered tool [finish], which returns ["done"],
    the observation of the code is another text. *)
Lemma C5_spec_prefix_counterexample :
  tool_execution_map (self (Demo.pending [])) !! "finish"
    = Some (execute Demo.finish_tool) /\
  call (execute Demo.finish_tool) ∅ (world (Demo.pending []))
    = (Return (VStr "done"), world (Demo.pending [])) /\
  truthy (VStr "done") = true /\
  (Demo.run_command (mkCmd (Some "finish") None) (Demo.pending [])).1
    <> Return ("Observed result of command 'finish':" +:+ nl +:+ "done").
Proof.
  split_and!; try reflexivity.
  vm_compute. discriminate.
Qed.

Lemma C10_error_dispatch_keeps_state_witness :
  "boom" ∈ special_tool_commands (self (Demo.pending_of Demo.unlucky_agent [])) /\
  state (self (Demo.run_command (mkCmd (Some "boom") None)
                 (Demo.pending_of Demo.unlucky_agent [])).2) = RUNNING.
Proof.
  assert (Hin : "boom" ∈ special_tool_commands
                  (self (Demo.pending_of Demo.unlucky_agent [])))
    by (vm_compute; apply list_elem_of_here).
  assert (Hn : named (mkCmd (Some "boom") None) "boom")
    by (split; [reflexivity | discriminate]).
  assert (Hm : tool_execution_map (self (Demo.pending_of Demo.unlucky_agent []))
                 !! "boom" = Some (execute Demo.failing_tool))
    by (vm_compute; reflexivity).
  assert (Hc : call (execute Demo.failing_tool)
                 (kwargs_of (mkCmd (Some "boom") None))
                 (world (Demo.pending_of Demo.unlucky_agent []))
               = (Raise (mkExc true
                    "Traceback (most recent call last): RuntimeError: boom"),
                  Demo.mkWorld "/a" []))
    by reflexivity.
  split; [exact Hin|].
  destruct (C10_error_dispatch_keeps_state (mkCmd (Some "boom") None)
              (Demo.pending_of Demo.unlucky_agent [])
              _ _ (surjective_pairing _)) as (_ & _ & H).
  unfold Demo.run_command.
  rewrite (H "boom" (execute Demo.failing_tool)
             (mkExc true "Traceback (most recent call last): RuntimeError: boom")
             (Demo.mkWorld "/a" []) Hn Hin Hm Hc).
  reflexivity.
Defined.

Lemma C3_one_tool_message_per_command_witness :
  raises_only_Exception
    (self (Demo.pending_of Demo.safe_agent
             [Demo.tc "c1" "bash" "/b"; Demo.tc "c2" "nope" "x";
              Demo.tc "c3" "boom" "x"])) /\
  map tool_call_id
    (messages (self (Demo.act
       (Demo.pending_of Demo.safe_agent
          [Demo.tc "c1" "bash" "/b"; Demo.tc "c2" "nope" "x";
           Demo.tc "c3" "boom" "x"])).2))
  = [Some "c1"; Some "c2"; Some "c3"].
Proof.
  assert (Hsafe : raises_only_Exception
            (self (Demo.pending_of Demo.safe_agent
                     [Demo.tc "c1" "bash" "/b"; Demo.tc "c2" "nope" "x";
                      Demo.tc "c3" "boom" "x"])))
    by exact safe_agent_raises_only_Exception.
  split; [exact Hsafe|].
  destruct (C3_one_tool_message_per_command
              Demo.transform_tool_call_to_command
              (Demo.pending_of Demo.safe_agent
                 [Demo.tc "c1" "bash" "/b"; Demo.tc "c2" "nope" "x";
                  Demo.tc "c3" "boom" "x"]) Hsafe)
    as (out & obs & s' & Hact & Hmsgs & _ & Hids & _).
  unfold Demo.act. rewrite Hact. cbn [snd].
  rewrite Hmsgs, map_app, Hids. reflexivity.
Defined.

Lemma C7_assistant_message_always_logged_witness :
  Demo.bash_execute "pwd" (world (Demo.sys0 [mkResponse None None]))
    = (Return "/a", Demo.mkWorld "/a" [mkResponse None None]) /\
  messages (self (Demo.think (Demo.sys0 [mkResponse None None])).2)
    = [mkMessage assistant None None None None].
Proof.
  assert (Hpwd : Demo.bash_execute "pwd"
                   (world (Demo.sys0 [mkResponse None None]))
                 = (Return "/a", Demo.mkWorld "/a" [mkResponse None None]))
    by reflexivity.
  assert (Hview : instruction_view
                    (set_working_dir "/a"
                       (self (Demo.sys0 [mkResponse None None])))
                  = Return [user_message "cwd: /a"])
    by (vm_compute; reflexivity).
  assert (Hask : Demo.aask_function [user_message "cwd: /a"]
                   (get_tool_params (self (Demo.sys0 [mkResponse None None])))
                   [system_prompt (self (Demo.sys0 [mkResponse None None]))]
                   (Demo.mkWorld "/a" [mkResponse None None])
                 = (Return (mkResponse None None), Demo.mkWorld "/a" []))
    by reflexivity.
  split; [exact Hpwd|].
  destruct (C7_assistant_message_always_logged
              Demo.bash_execute Demo.aask_function
              (Demo.sys0 [mkResponse None None]) "/a"
              (Demo.mkWorld "/a" [mkResponse None None])
              [user_message "cwd: /a"] (mkResponse None None)
              (Demo.mkWorld "/a" []) Hpwd Hview Hask)
    as (r & s' & Hthink & Hmsgs & _).
  unfold Demo.think. rewrite Hthink. cbn [snd]. rewrite Hmsgs. reflexivity.
Defined.

Lemma C8_no_commands_round_terminates_witness :
  default [] (response_tool_calls (mkResponse (Some "all done") (Some [])))
    = [] /\
  (Demo.rounds 30 (Demo.sys0 [mkResponse (Some "all done") (Some [])])).1
    = Return NoCommandsRequested /\
  messages
    (self (Demo.rounds 30
             (Demo.sys0 [mkResponse (Some "all done") (Some [])])).2)
    = [mkMessage assistant (Some "all done") (Some []) None None].
Proof.
  assert (Hpwd : Demo.bash_execute "pwd"
            (world (Demo.sys0 [mkResponse (Some "all done") (Some [])]))
          = (Return "/a",
             Demo.mkWorld "/a" [mkResponse (Some "all done") (Some [])]))
    by reflexivity.
  assert (Hview : instruction_view
            (set_working_dir "/a"
               (self (Demo.sys0 [mkResponse (Some "all done") (Some [])])))
          = Return [user_message "cwd: /a"])
    by (vm_compute; reflexivity).
  assert (Hask : Demo.aask_function [user_message "cwd: /a"]
            (get_tool_params
               (self (Demo.sys0 [mkResponse (Some "all done") (Some [])])))
            [system_prompt
               (self (Demo.sys0 [mkResponse (Some "all done") (Some [])]))]
            (Demo.mkWorld "/a" [mkResponse (Some "all done") (Some [])])
          = (Return (mkResponse (Some "all done") (Some [])),
             Demo.mkWorld "/a" []))
    by reflexivity.
  destruct (C8_no_commands_round_terminates
              Demo.bash_execute Demo.aask_function
              Demo.transform_tool_call_to_command
              (Demo.sys0 [mkResponse (Some "all done") (Some [])]) "/a"
              (Demo.mkWorld "/a" [mkResponse (Some "all done") (Some [])])
              [user_message "cwd: /a"]
              (mkResponse (Some "all done") (Some []))
              (Demo.mkWorld "/a" []) 29 Hpwd Hview Hask eq_refl)
    as (_ & _ & Hrounds & Hmsgs).
  unfold Demo.rounds. rewrite Hrounds. cbn [fst snd]. rewrite Hmsgs.
  split_and!; reflexivity.
Defined.

Lemma C2_terminal_command_in_batch_witness :
  (commands (self Demo.mixed_thought)
     = [Demo.tc "c1" "bash" "/b"] ++
       Demo.tc "c2" "finish" "x" :: [Demo.tc "c3" "boom" "x"] /\
   "finish" ∈ special_tool_commands (self Demo.mixed_thought)) /\
  (Demo.rounds 30 Demo.mixed_start).1 = Return TerminalCommandFired /\
  state (self (Demo.rounds 30 Demo.mixed_start).2) = FINISHED /\
  length (messages (self (Demo.rounds 30 Demo.mixed_start).2)) = 4.
Proof.
  assert (Hthink : think Demo.bash_execute Demo.aask_function Demo.mixed_start
                   = (Return true, Demo.mixed_thought))
    by (vm_compute; reflexivity).
  assert (Hsafe : raises_only_Exception (self Demo.mixed_thought))
    by exact safe_agent_raises_only_Exception.
  assert (Hcmds : commands (self Demo.mixed_thought)
                  = [Demo.tc "c1" "bash" "/b"] ++
                    Demo.tc "c2" "finish" "x" :: [Demo.tc "c3" "boom" "x"])
    by (vm_compute; reflexivity).
  assert (Hn : named (Demo.transform_tool_call_to_command
                        (Demo.tc "c2" "finish" "x")) "finish")
    by (split; [reflexivity | discriminate]).
  assert (Hin : "finish" ∈ special_tool_commands (self Demo.mixed_thought))
    by (vm_compute; apply list_elem_of_here).
  assert (Hm : tool_execution_map (self Demo.mixed_thought) !! "finish"
               = Some (execute Demo.finish_tool))
    by (vm_compute; reflexivity).
  assert (Hpre : act_loop Demo.transform_tool_call_to_command
                   [Demo.tc "c1" "bash" "/b"] [] Demo.mixed_thought
                 = (Return [observed_prefix "bash" +:+ no_output_sentence],
                    Demo.mixed_before_finish))
    by (vm_compute; reflexivity).
  assert (Hc : call (execute Demo.finish_tool)
                 (kwargs_of (Demo.transform_tool_call_to_command
                               (Demo.tc "c2" "finish" "x")))
                 (world Demo.mixed_before_finish)
               = (Return (VStr "done"), Demo.mkWorld "/b" []))
    by (vm_compute; reflexivity).
  split; [split; [exact Hcmds | exact Hin]|].
  destruct (C2_terminal_command_in_batch
              Demo.bash_execute Demo.aask_function
              Demo.transform_tool_call_to_command
              Demo.mixed_start Demo.mixed_thought
              [Demo.tc "c1" "bash" "/b"] (Demo.tc "c2" "finish" "x")
              [Demo.tc "c3" "boom" "x"] "finish" (execute Demo.finish_tool)
              [observed_prefix "bash" +:+ no_output_sentence]
              Demo.mixed_before_finish (VStr "done") (Demo.mkWorld "/b" []) 29
              Hthink Hsafe Hcmds Hn Hin Hm Hpre Hc)
    as (out & obs & outs_mid & s_mid & s' & _ & _ & _ & _ & _ & Hlen & Hmsgs
        & Hfin & Hrounds).
  unfold Demo.rounds. rewrite Hrounds. cbn [fst snd].
  split_and!.
  - reflexivity.
  - exact Hfin.
  - change (messages (self (stepped s'))) with (messages (self s')).
    rewrite Hmsgs, length_app, answers_length by exact Hlen.
    reflexivity.
Defined.

(** The claim C2 as worded has the Agent State become [FINISHED] only after
    the batch has been processed, and no round follow a batch that holds a
    terminal command.  With the batch [finish; bash]: after the first
    command alone the state is [FINISHED], with one tool message logged and
    the second command not yet dispatched.  And with a terminal command
    whose capability raises, the state is still [RUNNING] after the batch
    and the round does not end the run. *)
Lemma C2_finished_mid_batch_counterexample :
  state (self (Demo.act_loop [Demo.tc "c1" "finish" "x"] []
                 (Demo.pending [Demo.tc "c1" "finish" "x";
                                Demo.tc "c2" "bash" "/b"])).2) = FINISHED /\
  length (messages (self (Demo.act_loop [Demo.tc "c1" "finish" "x"] []
                 (Demo.pending [Demo.tc "c1" "finish" "x";
                                Demo.tc "c2" "bash" "/b"])).2)) = 1 /\
  calls (Demo.act_loop [Demo.tc "c1" "finish" "x"] []
                 (Demo.pending [Demo.tc "c1" "finish" "x";
                                Demo.tc "c2" "bash" "/b"])).2
    = [EvTool "finish" {[ "command" := VStr "x" ]}] /\
  length (messages (self (Demo.act
                 (Demo.pending [Demo.tc "c1" "finish" "x";
                                Demo.tc "c2" "bash" "/b"])).2)) = 2 /\
  "boom" ∈ special_tool_commands (self (Demo.pending_of Demo.unlucky_agent [])) /\
  state (self (Demo.act
                 (Demo.pending_of Demo.unlucky_agent
                    [Demo.tc "c1" "boom" "x"])).2) = RUNNING /\
  (Demo.round
     (Demo.sys_of Demo.unlucky_agent
        [mkResponse None (Some [Demo.tc "c1" "boom" "x"])])).1 = Return None.
Proof.
  split_and!; try (vm_compute; reflexivity).
  vm_compute. apply list_elem_of_here.
Qed.

(** C9 on [SWEAgent.think].  The shell is in [/a] in the first round and in
    [/b] in the second.  In the second round [SWEAgent.think] refreshes the
    working directory to [/b], but the instruction given to the model still
    reads [/a]: the first round assigned the formatted text to
    [next_step_prompt], so no field is left to format.
    [CodeActAgent.think], in the same situation, gives the model [/b]. *)
Theorem C9_SWEAgent_instruction_is_stale :
  working_dir (self Demo.swe_after_think2) = "/b" /\
  next_step_prompt (self Demo.swe_after_think2) = "cwd: /a" /\
  last (calls Demo.swe_after_think2)
    = Some (EvAsk (messages (self Demo.swe_after_round1) ++
                   [user_message "cwd: /a"])
                  [tt; tt; tt] ["system"]) /\
  working_dir (self Demo.codeact_after_think2) = "/b" /\
  next_step_prompt (self Demo.codeact_after_think2) = "cwd: {current_dir}" /\
  last (calls Demo.codeact_after_think2)
    = Some (EvAsk (messages (self Demo.codeact_after_round1) ++
                   [user_message "cwd: /b"])
                  [tt; tt; tt] ["system"]).
Proof.
  split_and!; vm_compute; reflexivity.
Qed.

(** ** Further properties: construction, dispatch, batches and rounds *)

Section Registry.

Context {World : Type} {ToolParam : Type}.

Local Abbreviation Agent := (Agent World ToolParam).
Local Abbreviation Tool := (Tool World ToolParam).

Implicit Types (a : Agent) (n : string).

Lemma register_tools_lookup (tool_list : list Tool)
    (m : gmap string (Executor World)) n :
  foldl (fun m tool_cls => <[tool_name tool_cls := execute tool_cls]> m)
        m tool_list !! n
  = match last (filter (fun t => tool_name t = n) tool_list) with
    | Some t => Some (execute t)
    | None => m !! n
    end.
Proof.
  induction tool_list as [|t ts IH] using rev_ind; [reflexivity|].
  rewrite foldl_app, filter_app. simpl.
  destruct (decide (tool_name t = n)) as [E | E].
  - rewrite filter_cons_True by exact E. rewrite filter_nil, last_snoc.
    rewrite E. apply lookup_insert_eq.
  - rewrite filter_cons_False by exact E. rewrite filter_nil, app_nil_r.
    rewrite lookup_insert_ne by exact E. apply IH.
Qed.

(** X1.  After the validator has run, a name resolves to the [execute] of
    the last tool class of [tools] that carries this name; a name that no
    tool class carries resolves as it did before. *)
Theorem set_tool_execution_map_lookup a n :
  tool_execution_map (set_tool_execution_map a) !! n
  = match last (filter (fun t => tool_name t = n) (tools a)) with
    | Some t => Some (execute t)
    | None => tool_execution_map a !! n
    end.
Proof. apply register_tools_lookup. Qed.

(** X2.  In a [CodeActAgent] as constructed, the registered names are
    exactly the names of its tool classes. *)
Theorem CodeActAgent_registered_names system next_step
    (tool_list : list Tool) terminal n :
  is_Some (tool_execution_map
             (CodeActAgent system next_step tool_list terminal) !! n)
  <-> n ∈ map tool_name tool_list.
Proof.
  unfold CodeActAgent. rewrite set_tool_execution_map_lookup. simpl.
  rewrite list_elem_of_fmap.
  destruct (last (filter (fun t => tool_name t = n) tool_list)) as [t|] eqn:E.
  - split; [intros _ | eauto].
    apply last_Some_elem_of in E.
    apply list_elem_of_filter in E as [Hn Hin]. eauto.
  - rewrite lookup_empty. split; [intros [? ?]; discriminate|].
    intros (t & Hn & Hin). apply last_None in E.
    assert (Hf : t ∈ filter (fun t => tool_name t = n) tool_list)
      by (apply list_elem_of_filter; auto).
    rewrite E in Hf. by apply not_elem_of_nil in Hf.
Qed.

(** The validator assigns the map and nothing else. *)
Lemma set_tool_execution_map_fields a :
  special_tool_commands (set_tool_execution_map a) = special_tool_commands a /\
  tools (set_tool_execution_map a) = tools a /\
  commands (set_tool_execution_map a) = commands a /\
  messages (set_tool_execution_map a) = messages a /\
  state (set_tool_execution_map a) = state a.
Proof. repeat split. Qed.

End Registry.

Section Batches.

Context {World : Type} {ToolParam : Type}.
Context (transform_tool_call_to_command : ToolCall -> Cmd).

Local Abbreviation Sys := (Sys World ToolParam).
Local Abbreviation Agent := (Agent World ToolParam).
Local Abbreviation act_loop := (act_loop transform_tool_call_to_command).
Local Abbreviation act := (act transform_tool_call_to_command).
Local Abbreviation invoked a c :=
  (invocation a (transform_tool_call_to_command c)).

Implicit Types (s : Sys) (a : Agent) (cmd : Cmd) (n : string).

Lemma invocation_config a a' cmd :
  unchanged_config a a' -> invocation a' cmd = invocation a cmd.
Proof.
  intros Hc. unfold invocation.
  by rewrite (uc_tool_execution_map _ _ Hc).
Qed.

Lemma invocation_named a cmd n :
  named cmd n ->
  invocation a cmd =
    match tool_execution_map a !! n with
    | Some _ => Some (EvTool n (kwargs_of cmd))
    | None => None
    end.
Proof.
  intros [Hn Hne]. unfold invocation. rewrite Hn.
  by rewrite bool_decide_eq_false_2.
Qed.

Lemma dispatched_calls cmd s r s' :
  dispatched cmd s r s' ->
  calls s' = calls s ++ option_list (invocation (self s) cmd).
Proof.
  intros D; destruct D as [H | n Hn Hm | n t e w' Hn Hm | n t e w' Hn Hm
                           | n t v w' Hn Hm].
  - unfold invocation. destruct H as [-> | ->]; simpl; by rewrite app_nil_r.
  - rewrite (invocation_named _ _ _ Hn), Hm. simpl. by rewrite app_nil_r.
  - by rewrite (invocation_named _ _ _ Hn), Hm.
  - by rewrite (invocation_named _ _ _ Hn), Hm.
  - by rewrite (invocation_named _ _ _ Hn), Hm.
Qed.

Lemma omap_cons_app {A B} (f : A -> option B) (x : A) (l : list A) :
  omap f (x :: l) = option_list (f x) ++ omap f l.
Proof. simpl. destruct (f x); reflexivity. Qed.

(** X3.  The dispatcher raises only when the capability of a registered
    command raised outside [Exception]; the exception is that one, and the
    agent is as it was. *)
Theorem run_command_raises_only_on_escape cmd s e s' :
  _run_command cmd s = (Raise e, s') ->
  exc_is_Exception e = false /\
  self s' = self s /\
  exists n tool_obj w',
    named cmd n /\
    tool_execution_map (self s) !! n = Some tool_obj /\
    call tool_obj (kwargs_of cmd) (world s) = (Raise e, w').
Proof.
  intros Hrun. apply run_command_inv in Hrun.
  inversion Hrun; subst. split_and!; eauto 10.
Qed.

(** X4.  An observation that is returned lacks the error marker exactly when
    the command was registered and its capability returned: whatever text a
    capability returns, error-like or not, is reported as an observed
    result. *)
Theorem error_marker_iff_not_returned cmd s obs s' :
  _run_command cmd s = (Return obs, s') ->
  (startswith ("Error:" +:+ nl) obs = false <->
   exists n tool_obj v w',
     named cmd n /\
     tool_execution_map (self s) !! n = Some tool_obj /\
     call tool_obj (kwargs_of cmd) (world s) = (Return v, w')).
Proof.
  intros Hrun. split.
  - intros Hmark. apply run_command_inv in Hrun.
    inversion Hrun; subst; try (rewrite startswith_error in Hmark; discriminate).
    eauto 10.
  - intros (n & tool_obj & v & w' & Hn & Hm & Hc).
    rewrite (run_command_returned cmd s n tool_obj v w' Hn Hm Hc) in Hrun.
    injection Hrun as <- _. apply startswith_error_observed.
Qed.

(** How far a batch gets, whatever the tools do: [k] commands are answered,
    each with its tool message, in order; the configuration of the agent is
    untouched and its state can only move to [FINISHED]; either the loop
    returns, with every command answered and the registered ones invoked in
    order, or a capability raised outside [Exception] at command [k], which
    was invoked and is not answered. *)
Lemma act_loop_progress cmds : forall outputs s r s',
  act_loop cmds outputs s = (r, s') ->
  exists k obs,
    length obs = k /\
    messages (self s') = messages (self s) ++ answers (take k cmds) obs /\
    unchanged_config (self s) (self s') /\
    (state (self s') = state (self s) \/ state (self s') = FINISHED) /\
    match r with
    | Return outs =>
        k = length cmds /\ outs = outputs ++ obs /\
        calls s' = calls s ++ omap (fun c => invoked (self s) c) cmds
    | Raise e =>
        k < length cmds /\ exc_is_Exception e = false /\
        calls s' = calls s ++ omap (fun c => invoked (self s) c) (take (S k) cmds)
    end.
Proof.
  induction cmds as [|c cmds IH]; intros outputs s r s' Hloop.
  - simpl in Hloop. unfold ret in Hloop. injection Hloop as <- <-.
    exists 0, []. simpl. rewrite !app_nil_r.
    split_and!; auto using unchanged_config_refl.
  - rewrite act_loop_cons in Hloop.
    destruct (_run_command (transform_tool_call_to_command c) s)
      as [r1 s1] eqn:Hrun.
    apply run_command_inv in Hrun.
    pose proof (dispatched_self _ _ _ _ Hrun) as Hself.
    pose proof (dispatched_calls _ _ _ _ Hrun) as Hcalls.
    destruct r1 as [output|e].
    + set (s2 := mkSys _ (world s1) (calls s1)) in Hloop.
      assert (Hc : unchanged_config (self s) (self s2)).
      { destruct Hself as [E | E]; subst s2; simpl; rewrite E;
          constructor; reflexivity. }
      assert (Hm : messages (self s2) =
                   messages (self s) ++
                   [tool_message output (call_id c) (function_name c)]).
      { destruct Hself as [E | E]; subst s2; simpl; rewrite E; reflexivity. }
      assert (Hst : state (self s2) = state (self s) \/
                    state (self s2) = FINISHED).
      { destruct Hself as [E | E]; subst s2; simpl; rewrite E; auto. }
      destruct (IH _ _ _ _ Hloop)
        as (k & obs & Hlen & Hmsgs & Hc' & Hst' & Hr).
      exists (S k), (output :: obs). split_and!.
      * simpl. lia.
      * rewrite Hmsgs, Hm, <- app_assoc. reflexivity.
      * eapply unchanged_config_trans; eassumption.
      * destruct Hst' as [-> | ->]; auto.
      * assert (Hinv : forall l : list ToolCall,
                 omap (fun c => invoked (self s2) c) l
                 = omap (fun c => invoked (self s) c) l).
        { intros l. induction l as [|x l IHl]; [reflexivity|].
          rewrite !omap_cons_app, IHl.
          by rewrite (invocation_config _ _ _ Hc). }
        destruct r as [outs|e]; destruct Hr as (Hk & Hr2 & Hcs).
        -- split_and!; [simpl; lia | by rewrite Hr2, <- app_assoc |].
           rewrite Hcs, Hinv, omap_cons_app, app_assoc.
           f_equal. exact Hcalls.
        -- split_and!; [simpl; lia | exact Hr2 |].
           rewrite Hcs, Hinv.
           change (take (S (S k)) (c :: cmds)) with (c :: take (S k) cmds).
           rewrite omap_cons_app, app_assoc. f_equal. exact Hcalls.
    + injection Hloop as <- <-.
      inversion Hrun; subst.
      exists 0, []. simpl. rewrite !app_nil_r.
      split_and!; auto using unchanged_config_refl; try lia.
      all: rewrite Hcalls; simpl; destruct (invoked (self s) c); reflexivity.
Qed.

Lemma act_unfold s :
  act s =
    match commands (self s) with
    | [] => (Return "No commands to execute", s)
    | cmds =>
        match act_loop cmds [] s with
        | (Return outs, s') => (Return (str_join (nl +:+ nl) outs), s')
        | (Raise e, s') => (Raise e, s')
        end
    end.
Proof.
  unfold act, bind, get_self, ret.
  destruct (commands (self s)) as [|c cmds]; [reflexivity|].
  destruct (act_loop (c :: cmds) [] s) as [[outs|e] s']; reflexivity.
Qed.

Lemma act_as_loop s :
  (act s).2 = (act_loop (commands (self s)) [] s).2 /\
  (forall e, (act s).1 = Raise e <->
             (act_loop (commands (self s)) [] s).1 = Raise e).
Proof.
  rewrite act_unfold.
  destruct (commands (self s)) as [|c cmds]; [by split|].
  destruct (act_loop (c :: cmds) [] s) as [[outs|e] s']; simpl.
  - split; [reflexivity|]. intros e; split; discriminate.
  - split; [reflexivity|]. intros e'; split; intros [= ->]; reflexivity.
Qed.

(** X5.  When every capability raises within [Exception], [act] returns,
    and the external calls it has made are the invocations of the
    registered commands of the batch, one each, in the order of the batch:
    no capability is called twice or out of turn, a command without a
    usable or registered name calls nothing, and neither the shell nor the
    model is called. *)
Theorem act_invokes_tools_in_order s :
  raises_only_Exception (self s) ->
  exists out s',
    act s = (Return out, s') /\
    calls s' =
      calls s ++ omap (fun c => invoked (self s) c) (commands (self s)).
Proof.
  intros Hsafe.
  destruct (act_effect transform_tool_call_to_command s Hsafe)
    as (obs & s' & Hact & Hloop & _).
  destruct (act_loop_progress _ _ _ _ _ Hloop)
    as (k & obs' & _ & _ & _ & _ & _ & _ & Hcalls).
  eauto.
Qed.

(** X6.  [act] raises only on a capability raising outside [Exception].
    The commands before the offending one have their tool messages in the
    log, in order; the offending command was invoked and has none; the
    commands after it were not dispatched. *)
Theorem act_aborts_on_escape s e s' :
  act s = (Raise e, s') ->
  exc_is_Exception e = false /\
  exists k obs,
    k < length (commands (self s)) /\
    length obs = k /\
    messages (self s') =
      messages (self s) ++ answers (take k (commands (self s))) obs /\
    calls s' =
      calls s ++
      omap (fun c => invoked (self s) c) (take (S k) (commands (self s))).
Proof.
  intros Hact.
  destruct (act_as_loop s) as [Hs He].
  rewrite Hact in Hs, He. simpl in Hs.
  pose proof (proj1 (He e) eq_refl) as Hr.
  destruct (act_loop (commands (self s)) [] s) as [r s''] eqn:Hloop.
  simpl in Hs, Hr. subst r s''.
  destruct (act_loop_progress _ _ _ _ _ Hloop)
    as (k & obs & Hlen & Hmsgs & _ & _ & Hk & Hexc & Hcalls).
  split; [exact Hexc|]. exists k, obs. auto.
Qed.

(** X7.  Whatever happens in a batch, [act] only appends to the log, leaves
    the configuration of the agent (prompts, tools, registry, terminal
    commands, pending commands, directory, limits, step counter) as it was,
    and changes the Agent State, if at all, to [FINISHED]. *)
Theorem act_frame s :
  messages (self s) `prefix_of` messages (self (act s).2) /\
  unchanged_config (self s) (self (act s).2) /\
  (state (self (act s).2) = state (self s) \/
   state (self (act s).2) = FINISHED).
Proof.
  destruct (act_as_loop s) as [-> _].
  destruct (act_loop (commands (self s)) [] s) as [r s'] eqn:Hloop.
  destruct (act_loop_progress _ _ _ _ _ Hloop)
    as (k & obs & _ & Hmsgs & Hc & Hst & _).
  simpl. split_and!; [|exact Hc|exact Hst].
  rewrite Hmsgs. by apply prefix_app_r.
Qed.

Lemma dispatched_not_terminal cmd s r s' :
  dispatched cmd s r s' ->
  names_terminal (self s) cmd = false ->
  self s' = self s.
Proof.
  intros D Hnt; destruct D as [| | | |n t v w' [Hn Hne] Hm]; try reflexivity.
  unfold names_terminal in Hnt. rewrite Hn in Hnt. simpl.
  by rewrite Hnt.
Qed.

Lemma act_loop_not_terminal cmds : forall outputs s,
  Forall (fun c => names_terminal (self s) (transform_tool_call_to_command c)
                   = false) cmds ->
  state (self (act_loop cmds outputs s).2) = state (self s).
Proof.
  induction cmds as [|c cmds IH]; intros outputs s Hall; [reflexivity|].
  apply Forall_cons_1 in Hall as [Hc Hall].
  rewrite act_loop_cons.
  destruct (_run_command (transform_tool_call_to_command c) s)
    as [r1 s1] eqn:Hrun.
  apply run_command_inv in Hrun.
  pose proof (dispatched_not_terminal _ _ _ _ Hrun Hc) as Hself.
  destruct r1 as [output|e]; simpl; [|by rewrite Hself].
  rewrite IH; simpl; rewrite Hself; [reflexivity | exact Hall].
Qed.

(** X8.  A batch in which no command names a terminal command leaves the
    Agent State as it was, whatever the capabilities return or raise. *)
Theorem act_without_terminal_keeps_state s :
  Forall (fun c => names_terminal (self s) (transform_tool_call_to_command c)
                   = false) (commands (self s)) ->
  state (self (act s).2) = state (self s).
Proof.
  intros Hall. destruct (act_as_loop s) as [-> _].
  by apply act_loop_not_terminal.
Qed.

(** X9.  The text [act] returns for a batch with commands is the
    observations joined by a blank line, and these observations are the
    contents of the tool messages the call has added to the log. *)
Theorem act_returns_joined_observations s :
  raises_only_Exception (self s) ->
  commands (self s) <> [] ->
  exists obs s',
    act s = (Return (str_join (nl +:+ nl) obs), s') /\
    map content (drop (length (messages (self s))) (messages (self s')))
      = map Some obs.
Proof.
  intros Hsafe Hne.
  destruct (act_effect transform_tool_call_to_command s Hsafe)
    as (obs & s' & Hact & _ & Hlen & Hmsgs & _).
  exists obs, s'. split.
  - destruct (commands (self s)); [done | exact Hact].
  - rewrite Hmsgs, drop_app_length. by apply answers_contents.
Qed.

End Batches.

Section Rounds.

Context {World : Type} {ToolParam : Type}.
Context (bash_execute : string -> World -> outcome string * World).
Context (aask_function :
  list Message -> list ToolParam -> list string -> World ->
  outcome Response * World).
Context (transform_tool_call_to_command : ToolCall -> Cmd).

Local Abbreviation Sys := (Sys World ToolParam).
Local Abbreviation act := (act transform_tool_call_to_command).
Local Abbreviation think := (think bash_execute aask_function).

Implicit Types (s : Sys).

Lemma think_shell_raised s e w1 :
  bash_execute "pwd" (world s) = (Raise e, w1) ->
  think s = (Raise e, mkSys (self s) w1 (calls s ++ [EvBash "pwd"])).
Proof.
  intros Hpwd. unfold think, bind, external. simpl. rewrite Hpwd. reflexivity.
Qed.

Lemma think_instruction_raised s wd w1 e :
  bash_execute "pwd" (world s) = (Return wd, w1) ->
  instruction_view (set_working_dir wd (self s)) = Raise e ->
  think s =
    (Raise e,
     mkSys (set_working_dir wd (self s)) w1 (calls s ++ [EvBash "pwd"])).
Proof.
  intros Hpwd Hview.
  unfold think, bind, external, modify_self, get_self, ret, raise. simpl.
  rewrite Hpwd. simpl.
  unfold instruction_view in Hview. simpl in Hview.
  destruct (bool_decide (next_step_prompt (self s) = EmptyString));
    [discriminate|].
  destruct (py_format (next_step_prompt (self s)) wd) as [text|e'];
    [discriminate|].
  injection Hview as ->. reflexivity.
Qed.

Lemma think_model_raised s wd w1 msgs e w2 :
  bash_execute "pwd" (world s) = (Return wd, w1) ->
  instruction_view (set_working_dir wd (self s)) = Return msgs ->
  aask_function msgs (get_tool_params (self s)) [system_prompt (self s)] w1
    = (Raise e, w2) ->
  think s =
    (Raise e,
     mkSys (set_working_dir wd (self s)) w2
           (calls s ++
            [EvBash "pwd";
             EvAsk msgs (get_tool_params (self s)) [system_prompt (self s)]])).
Proof.
  intros Hpwd Hview Hask.
  unfold think, bind, external, modify_self, get_self, ret, raise. simpl.
  rewrite Hpwd. simpl.
  unfold instruction_view in Hview. simpl in Hview.
  destruct (bool_decide (next_step_prompt (self s) = EmptyString)).
  - injection Hview as <-. unfold get_tool_params in *. simpl.
    rewrite Hask. simpl. by rewrite <- app_assoc.
  - destruct (py_format (next_step_prompt (self s)) wd) as [text|e'];
      [|discriminate].
    injection Hview as <-. unfold get_tool_params in *. simpl.
    rewrite Hask. simpl. by rewrite <- app_assoc.
Qed.

(** X10.  When [think] raises, whether the shell, the formatting of the
    instruction or the model failed, nothing has been appended to the log
    and the commands of the previous round are still pending; the only
    field that may have been assigned is the working directory. *)
Theorem think_raise_leaves_log s e s' :
  think s = (Raise e, s') ->
  (self s' = self s \/ exists wd, self s' = set_working_dir wd (self s)) /\
  messages (self s') = messages (self s) /\
  commands (self s') = commands (self s) /\
  state (self s') = state (self s).
Proof.
  intros Hthink.
  assert (H : self s' = self s \/
              exists wd, self s' = set_working_dir wd (self s)).
  { destruct (bash_execute "pwd" (world s)) as [[wd|e1] w1] eqn:Hpwd.
    2: { rewrite (think_shell_raised s e1 w1 Hpwd) in Hthink.
         injection Hthink as _ <-. by left. }
    destruct (instruction_view (set_working_dir wd (self s)))
      as [msgs|e2] eqn:Hview.
    2: { rewrite (think_instruction_raised s wd w1 e2 Hpwd Hview) in Hthink.
         injection Hthink as _ <-. right. by exists wd. }
    destruct (aask_function msgs (get_tool_params (self s))
                [system_prompt (self s)] w1) as [[response|e3] w2] eqn:Hask.
    - rewrite (think_returned bash_execute aask_function
                 s wd w1 msgs response w2 Hpwd Hview Hask) in Hthink.
      discriminate.
    - rewrite (think_model_raised s wd w1 msgs e3 w2 Hpwd Hview Hask)
        in Hthink.
      injection Hthink as _ <-. right. by exists wd. }
  split; [exact H|].
  destruct H as [-> | [wd ->]]; repeat split.
Qed.


(** X12.  A round, [think] followed by [act], extends the log by the
    assistant message of the response followed by one tool message per
    tool call of that response, the correlation ids of the tool messages
    being the ids of those calls, in order; the commands left pending are
    those calls. *)
Theorem round_log_shape s wd w1 msgs response w2 :
  bash_execute "pwd" (world s) = (Return wd, w1) ->
  instruction_view (set_working_dir wd (self s)) = Return msgs ->
  aask_function msgs (get_tool_params (self s)) [system_prompt (self s)] w1
    = (Return response, w2) ->
  raises_only_Exception (self s) ->
  exists r s1 out obs s',
    think s = (Return r, s1) /\
    commands (self s1) = default [] (response_tool_calls response) /\
    act s1 = (Return out, s') /\
    messages (self s') =
      messages (self s) ++
      from_tool_calls (response_content response)
                      (response_tool_calls response)
      :: answers (default [] (response_tool_calls response)) obs /\
    map tool_call_id
        (answers (default [] (response_tool_calls response)) obs)
      = map (fun c => Some (call_id c))
            (default [] (response_tool_calls response)).
Proof.
  intros Hpwd Hview Hask Hsafe.
  pose proof (think_returned bash_execute aask_function
                s wd w1 msgs response w2 Hpwd Hview Hask) as Hthink.
  assert (Hsafe1 : raises_only_Exception
                     (self (after_think s wd msgs response w2)))
    by exact Hsafe.
  destruct (act_effect transform_tool_call_to_command _ Hsafe1)
    as (obs & s' & Hact & _ & Hlen & Hmsgs & _).
  eexists _, _, _, obs, s'. split_and!.
  - exact Hthink.
  - reflexivity.
  - exact Hact.
  - rewrite Hmsgs. simpl. by rewrite <- app_assoc.
  - by apply answers_ids.
Qed.

End Rounds.

Lemma run_command_raises_only_on_escape_witness :
  Demo.run_command (mkCmd (Some "halt") None) (Demo.pending [])
    = (Raise (mkExc false "KeyboardInterrupt"),
       (Demo.run_command (mkCmd (Some "halt") None) (Demo.pending [])).2) /\
  self (Demo.run_command (mkCmd (Some "halt") None) (Demo.pending [])).2
    = self (Demo.pending []).
Proof.
  assert (H : Demo.run_command (mkCmd (Some "halt") None) (Demo.pending [])
              = (Raise (mkExc false "KeyboardInterrupt"),
                 (Demo.run_command (mkCmd (Some "halt") None)
                    (Demo.pending [])).2))
    by (vm_compute; reflexivity).
  split; [exact H|].
  exact (proj1 (proj2 (run_command_raises_only_on_escape
                         (mkCmd (Some "halt") None) (Demo.pending [])
                         (mkExc false "KeyboardInterrupt") _ H))).
Defined.

Lemma error_marker_iff_not_returned_witness :
  Demo.run_command (mkCmd (Some "finish") None) (Demo.pending [])
    = (Return (observed_prefix "finish" +:+ "done"),
       (Demo.run_command (mkCmd (Some "finish") None) (Demo.pending [])).2) /\
  exists n tool_obj v w',
    named (mkCmd (Some "finish") None) n /\
    tool_execution_map (self (Demo.pending [])) !! n = Some tool_obj /\
    call tool_obj (kwargs_of (mkCmd (Some "finish") None))
         (world (Demo.pending [])) = (Return v, w').
Proof.
  assert (H : Demo.run_command (mkCmd (Some "finish") None) (Demo.pending [])
              = (Return (observed_prefix "finish" +:+ "done"),
                 (Demo.run_command (mkCmd (Some "finish") None)
                    (Demo.pending [])).2))
    by (vm_compute; reflexivity).
  split; [exact H|].
  apply (proj1 (error_marker_iff_not_returned
                  (mkCmd (Some "finish") None) (Demo.pending [])
                  (observed_prefix "finish" +:+ "done") _ H)).
  reflexivity.
Defined.

Lemma plain_batch_raises_only_Exception :
  raises_only_Exception (self (Demo.pending_of Demo.safe_agent Demo.plain_batch)).
Proof. exact safe_agent_raises_only_Exception. Qed.

Lemma act_invokes_tools_in_order_witness :
  raises_only_Exception
    (self (Demo.pending_of Demo.safe_agent Demo.plain_batch)) /\
  calls (Demo.act (Demo.pending_of Demo.safe_agent Demo.plain_batch)).2
    = [EvTool "bash" {[ "command" := VStr "/b" ]};
       EvTool "boom" {[ "command" := VStr "x" ]}].
Proof.
  split; [exact plain_batch_raises_only_Exception|].
  destruct (act_invokes_tools_in_order Demo.transform_tool_call_to_command
              (Demo.pending_of Demo.safe_agent Demo.plain_batch)
              plain_batch_raises_only_Exception)
    as (out & s' & Hact & Hcalls).
  unfold Demo.act. rewrite Hact. cbn [snd]. rewrite Hcalls.
  vm_compute. reflexivity.
Defined.

Lemma act_aborts_on_escape_witness :
  Demo.act (Demo.pending Demo.interrupted_batch)
    = (Raise (mkExc false "KeyboardInterrupt"),
       (Demo.act (Demo.pending Demo.interrupted_batch)).2) /\
  exists k : nat, k < 3.
Proof.
  assert (H : Demo.act (Demo.pending Demo.interrupted_batch)
              = (Raise (mkExc false "KeyboardInterrupt"),
                 (Demo.act (Demo.pending Demo.interrupted_batch)).2))
    by (vm_compute; reflexivity).
  split; [exact H|].
  destruct (act_aborts_on_escape Demo.transform_tool_call_to_command
              (Demo.pending Demo.interrupted_batch)
              (mkExc false "KeyboardInterrupt") _ H)
    as (_ & k & obs & Hk & _).
  exists k. exact Hk.
Defined.

Lemma act_without_terminal_keeps_state_witness :
  Forall (fun c => names_terminal
                     (self (Demo.pending_of Demo.safe_agent Demo.plain_batch))
                     (Demo.transform_tool_call_to_command c) = false)
         (commands (self (Demo.pending_of Demo.safe_agent Demo.plain_batch))) /\
  state (self (Demo.act (Demo.pending_of Demo.safe_agent Demo.plain_batch)).2)
    = RUNNING.
Proof.
  assert (H : Forall (fun c => names_terminal
                     (self (Demo.pending_of Demo.safe_agent Demo.plain_batch))
                     (Demo.transform_tool_call_to_command c) = false)
         (commands (self (Demo.pending_of Demo.safe_agent Demo.plain_batch)))).
  { repeat (constructor; [vm_compute; reflexivity|]). constructor. }
  split; [exact H|].
  unfold Demo.act.
  rewrite (act_without_terminal_keeps_state
             Demo.transform_tool_call_to_command
             (Demo.pending_of Demo.safe_agent Demo.plain_batch) H).
  reflexivity.
Defined.

Lemma act_returns_joined_observations_witness :
  commands (self (Demo.pending_of Demo.safe_agent Demo.plain_batch)) <> [] /\
  exists obs,
    (Demo.act (Demo.pending_of Demo.safe_agent Demo.plain_batch)).1
      = Return (str_join (nl +:+ nl) obs).
Proof.
  assert (Hne : commands (self (Demo.pending_of Demo.safe_agent
                                  Demo.plain_batch)) <> [])
    by discriminate.
  split; [exact Hne|].
  destruct (act_returns_joined_observations
              Demo.transform_tool_call_to_command
              (Demo.pending_of Demo.safe_agent Demo.plain_batch)
              plain_batch_raises_only_Exception Hne)
    as (obs & s' & Hact & _).
  exists obs. unfold Demo.act. rewrite Hact. reflexivity.
Defined.

Lemma think_raise_leaves_log_witness :
  Demo.think (Demo.sys0 [])
    = (Raise (mkExc true "ConnectionError: no reply"),
       (Demo.think (Demo.sys0 [])).2) /\
  messages (self (Demo.think (Demo.sys0 [])).2)
    = messages (self (Demo.sys0 [])).
Proof.
  assert (H : think Demo.bash_execute Demo.aask_function (Demo.sys0 [])
              = (Raise (mkExc true "ConnectionError: no reply"),
                 (Demo.think (Demo.sys0 [])).2))
    by (vm_compute; reflexivity).
  split; [exact H|].
  exact (proj1 (proj2 (think_raise_leaves_log
                         Demo.bash_execute Demo.aask_function
                         (Demo.sys0 [])
                         (mkExc true "ConnectionError: no reply") _ H))).
Defined.


Lemma round_log_shape_witness :
  raises_only_Exception (self Demo.mixed_start) /\
  map tool_call_id
      (messages (self (Demo.act (Demo.think Demo.mixed_start).2).2))
    = [None; Some "c1"; Some "c2"; Some "c3"].
Proof.
  assert (Hsafe : raises_only_Exception (self Demo.mixed_start))
    by exact safe_agent_raises_only_Exception.
  assert (Hpwd : Demo.bash_execute "pwd" (world Demo.mixed_start)
                 = (Return "/a", world Demo.mixed_start))
    by reflexivity.
  assert (Hview : instruction_view
                    (set_working_dir "/a" (self Demo.mixed_start))
                  = Return [user_message "cwd: /a"])
    by (vm_compute; reflexivity).
  assert (Hask : Demo.aask_function [user_message "cwd: /a"]
                   (get_tool_params (self Demo.mixed_start))
                   [system_prompt (self Demo.mixed_start)]
                   (world Demo.mixed_start)
                 = (Return (mkResponse None (Some Demo.mixed_batch)),
                    Demo.mkWorld "/a" []))
    by reflexivity.
  split; [exact Hsafe|].
  destruct (round_log_shape Demo.bash_execute Demo.aask_function
              Demo.transform_tool_call_to_command
              Demo.mixed_start "/a" (world Demo.mixed_start)
              [user_message "cwd: /a"]
              (mkResponse None (Some Demo.mixed_batch))
              (Demo.mkWorld "/a" []) Hpwd Hview Hask Hsafe)
    as (r & s1 & out & obs & s' & Hthink & _ & Hact & Hmsgs & Hids).
  unfold Demo.think, Demo.act. rewrite Hthink. cbn [snd].
  rewrite Hact. cbn [snd].
  rewrite Hmsgs, map_app, map_cons, Hids. reflexivity.
Defined.

Lemma SWEAgent_think_keeps_old_instruction_witness :
  brace_free (next_step_prompt (self Demo.swe_after_round1)) = true /\
  next_step_prompt (self Demo.swe_after_round1) = "cwd: /a" /\
  Demo.SWEAgent_think Demo.swe_after_round1
    = ToolCallAgent_think Demo.aask_function
        (mkSys (set_next_step_prompt "cwd: /a"
                  (set_working_dir "/b" (self Demo.swe_after_round1)))
               (world Demo.swe_after_round1)
               (calls Demo.swe_after_round1 ++ [EvBash "pwd"])).
Proof.
  assert (Hpwd : Demo.bash_execute "pwd" (world Demo.swe_after_round1)
                 = (Return "/b", world Demo.swe_after_round1))
    by (vm_compute; reflexivity).
  assert (Hfree : brace_free (next_step_prompt (self Demo.swe_after_round1))
                  = true)
    by (vm_compute; reflexivity).
  assert (Hprompt : next_step_prompt (self Demo.swe_after_round1) = "cwd: /a")
    by (vm_compute; reflexivity).
  split_and!; [exact Hfree | exact Hprompt |].
  unfold Demo.SWEAgent_think.
  rewrite (SWEAgent_think_keeps_old_instruction Demo.bash_execute
             (ToolCallAgent_think Demo.aask_function)
             Demo.swe_after_round1 "/b" (world Demo.swe_after_round1)
             Hpwd Hfree).
  rewrite Hprompt. reflexivity.
Defined.

(** ** Properties of the project-template tool *)

Section TemplateTool.

Import RepoTemplate.

Context {FS : Type}.
Context (subprocess_run :
  string -> PyValue -> FS -> RepoTemplate.run_result * FS).
Context (makedirs : string -> FS -> outcome unit * FS).
Context (write_text : string -> string -> FS -> outcome unit * FS).

Local Abbreviation ToolWorld := (RepoTemplate.ToolWorld FS).
Local Abbreviation T := (RepoTemplate.T FS).
Local Abbreviation do_makedirs := (RepoTemplate.do_makedirs makedirs).
Local Abbreviation do_write_text := (RepoTemplate.do_write_text write_text).
Local Abbreviation create_children :=
  (RepoTemplate.create_children makedirs write_text).
Local Abbreviation create_directory_structure :=
  (RepoTemplate._create_directory_structure makedirs write_text).
Local Abbreviation tool_execute :=
  (RepoTemplate.execute subprocess_run makedirs write_text).

Implicit Types (w : ToolWorld).

Lemma follows_tret {A} (x : A) : follows (tret (FS := FS) x) [].
Proof.
  intros w r w' [= <- <-]. exists []. by rewrite app_nil_r.
Qed.

Lemma follows_makedirs path : follows (do_makedirs path) [Makedirs path].
Proof.
  intros w r w' H. unfold RepoTemplate.do_makedirs in H.
  destruct (makedirs path (fs w)) as [r1 f]. injection H as <- <-.
  exists [Makedirs path]. simpl. split_and!; [done..|].
  by destruct r1.
Qed.

Lemma follows_write_text path text :
  follows (do_write_text path text) [WriteText path text].
Proof.
  intros w r w' H. unfold RepoTemplate.do_write_text in H.
  destruct (write_text path text (fs w)) as [r1 f]. injection H as <- <-.
  exists [WriteText path text]. simpl. split_and!; [done..|].
  by destruct r1.
Qed.

Lemma follows_tbind {A B} (m : T A) (k : A -> T B) (p1 p2 : list Op) :
  follows m p1 -> (forall x, follows (k x) p2) ->
  follows (tbind m k) (p1 ++ p2).
Proof.
  intros Hm Hk w r w' H. unfold tbind in H.
  destruct (m w) as [[x|e] w1] eqn:Hmw.
  - destruct (Hm _ _ _ Hmw) as (d1 & Hops1 & _ & ->).
    destruct (Hk x _ _ _ H) as (d2 & Hops2 & Hpre2 & Hr).
    exists (p1 ++ d2). split_and!.
    + by rewrite Hops2, Hops1, app_assoc.
    + by apply prefix_app.
    + destruct r; [by rewrite Hr|].
      intros E. apply app_eq_nil in E as [_ E]. by apply Hr.
  - injection H as <- <-.
    destruct (Hm _ _ _ Hmw) as (d1 & Hops1 & Hpre1 & Hne).
    exists d1. split_and!; [done| |done].
    by apply prefix_app_r.
Qed.

Lemma follows_create_children dir_path cs :
  follows (create_children dir_path cs) (child_plan dir_path cs).
Proof.
  induction cs as [|child rest IH]; [apply follows_tret|].
  simpl.
  change (Makedirs (path_join dir_path child)
          :: WriteText (path_join (path_join dir_path child) "index.ts")
                       index_text
          :: child_plan dir_path rest)
    with ([Makedirs (path_join dir_path child)] ++
          [WriteText (path_join (path_join dir_path child) "index.ts")
                     index_text] ++
          child_plan dir_path rest).
  apply follows_tbind; [apply follows_makedirs | intros _].
  apply follows_tbind; [apply follows_write_text | intros _].
  exact IH.
Qed.

Lemma follows_create_directory_structure base_path structure :
  follows (create_directory_structure base_path structure)
          (plan base_path structure).
Proof.
  induction structure as [|item rest IH]; [apply follows_tret|].
  set (dir_path := path_join base_path (dir_name item)).
  change (follows
            (tbind (do_makedirs dir_path) (fun _ =>
             tbind (match children item with
                    | Some (c :: cs) =>
                        tbind (do_write_text (path_join dir_path "index.ts")
                                             index_text) (fun _ =>
                        create_children dir_path (c :: cs))
                    | _ => tret tt
                    end) (fun _ =>
             create_directory_structure base_path rest)))
            ([Makedirs dir_path] ++
             match children item with
             | Some (c :: cs) =>
                 [WriteText (path_join dir_path "index.ts") index_text] ++
                 child_plan dir_path (c :: cs)
             | _ => []
             end ++ plan base_path rest)).
  apply follows_tbind; [apply follows_makedirs | intros _].
  apply follows_tbind; [|intros _; exact IH].
  destruct (children item) as [[|c cs]|]; try apply follows_tret.
  apply follows_tbind; [apply follows_write_text | intros _].
  apply follows_create_children.
Qed.


Lemma writes_prepared_nil : writes_prepared [].
Proof. intros i path text H. by rewrite lookup_nil in H. Qed.

Lemma writes_prepared_app (l1 l2 : list Op) :
  writes_prepared l1 -> writes_prepared l2 -> writes_prepared (l1 ++ l2).
Proof.
  intros H1 H2 i path text H.
  destruct (decide (i < length l1)) as [Hi | Hi].
  - rewrite lookup_app_l in H by exact Hi.
    destruct (H1 _ _ _ H) as (-> & d & j & Hj & Hd & ->).
    split; [reflexivity|]. exists d, j. split_and!; [done| |done].
    rewrite lookup_app_l by lia. exact Hd.
  - rewrite lookup_app_r in H by lia.
    destruct (H2 _ _ _ H) as (-> & d & j & Hj & Hd & ->).
    split; [reflexivity|]. exists d, (length l1 + j).
    split_and!; [lia| |done].
    rewrite lookup_app_r by lia.
    replace (length l1 + j - length l1) with j by lia. exact Hd.
Qed.

Lemma writes_prepared_prefix (l l' : list Op) :
  l `prefix_of` l' -> writes_prepared l' -> writes_prepared l.
Proof.
  intros [k ->] H i path text Hi.
  assert (Hlt : i < length l) by (by apply lookup_lt_Some in Hi).
  destruct (H i path text) as (-> & d & j & Hj & Hd & ->).
  { rewrite lookup_app_l by exact Hlt. exact Hi. }
  split; [reflexivity|]. exists d, j. split_and!; [done| |done].
  rewrite lookup_app_l in Hd by lia. exact Hd.
Qed.

Lemma writes_prepared_makedirs d : writes_prepared [Makedirs d].
Proof. intros [|[|i]] path text H; simpl in H; discriminate. Qed.

Lemma writes_prepared_pair d :
  writes_prepared [Makedirs d; WriteText (path_join d "index.ts") index_text].
Proof.
  intros [|[|[|i]]] path text H; simpl in H; try discriminate.
  injection H as <- <-. split; [reflexivity|].
  exists d, 0. split_and!; [lia | reflexivity | reflexivity].
Qed.

Lemma writes_prepared_child_plan dir_path cs :
  writes_prepared (child_plan dir_path cs).
Proof.
  induction cs as [|c cs IH]; [apply writes_prepared_nil|].
  change (child_plan dir_path (c :: cs))
    with ([Makedirs (path_join dir_path c);
           WriteText (path_join (path_join dir_path c) "index.ts") index_text]
          ++ child_plan dir_path cs).
  apply writes_prepared_app; [apply writes_prepared_pair | exact IH].
Qed.

Lemma writes_prepared_plan base_path structure :
  writes_prepared (plan base_path structure).
Proof.
  induction structure as [|item rest IH]; [apply writes_prepared_nil|].
  change (plan base_path (item :: rest))
    with (item_plan base_path item ++ plan base_path rest).
  apply writes_prepared_app; [|exact IH].
  unfold item_plan.
  destruct (children item) as [[|c cs]|];
    try apply writes_prepared_makedirs.
  apply (writes_prepared_app [_; _]);
    [apply writes_prepared_pair | apply writes_prepared_child_plan].
Qed.

(** X15.  Whatever the file system answers, every file
    [_create_directory_structure] writes is an [index.ts] holding the
    standard comment line, placed in a directory that an earlier call of
    the same run has created. *)
Theorem create_directory_structure_writes_prepared
    base_path structure w r w' :
  create_directory_structure base_path structure w = (r, w') ->
  exists done, ops w' = ops w ++ done /\ writes_prepared done.
Proof.
  intros H.
  destruct (follows_create_directory_structure _ _ _ _ _ H)
    as (done & Hops & Hpre & _).
  exists done. split; [exact Hops|].
  eapply writes_prepared_prefix; [exact Hpre|].
  apply writes_prepared_plan.
Qed.

Lemma prefix_elem_of (l l' : list Op) (op : Op) :
  l `prefix_of` l' -> op ∈ l -> op ∈ l'.
Proof. intros [k ->] Hin. apply elem_of_app. by left. Qed.

Lemma append_cons (c : ascii) (a b : string) :
  String c a +:+ b = String c (a +:+ b).
Proof. reflexivity. Qed.

Lemma append_assoc (a b c : string) : (a +:+ b) +:+ c = a +:+ (b +:+ c).
Proof.
  induction a as [|x a IH]; [reflexivity|].
  by rewrite !append_cons, IH.
Qed.

Lemma startswith_append (a b : string) : startswith a (a +:+ b) = true.
Proof.
  unfold startswith. induction a as [|x a IH].
  - change (EmptyString +:+ b) with b. by destruct b.
  - rewrite append_cons. simpl. by destruct (ascii_dec x x).
Qed.

Lemma path_join_relative (a b : string) :
  startswith "/" b = false -> exists z, path_join a b = a +:+ z.
Proof.
  intros Hb. unfold path_join. rewrite Hb.
  destruct (bool_decide (a = EmptyString) || ends_with_sep a); eauto.
Qed.

Lemma child_plan_under (root dir_path : string) (cs : list string) :
  (exists z, dir_path = root +:+ z) ->
  forallb (fun child => negb (startswith "/" child)) cs = true ->
  forall op p, op ∈ child_plan dir_path cs -> op_path op = Some p ->
               startswith root p = true.
Proof.
  intros [z ->] Hrel op p Hin Hp.
  unfold child_plan in Hin. apply list_elem_of_In, in_flat_map in Hin.
  destruct Hin as (child & Hchild & Hop).
  rewrite forallb_forall in Hrel. specialize (Hrel _ Hchild).
  apply negb_true_iff in Hrel.
  destruct (path_join_relative (root +:+ z) child Hrel) as [z1 E1].
  destruct (path_join_relative (path_join (root +:+ z) child) "index.ts"
              eq_refl) as [z2 E2].
  destruct Hop as [<- | [<- | []]]; simpl in Hp; injection Hp as <-.
  - rewrite E1, append_assoc. apply startswith_append.
  - rewrite E2, E1, !append_assoc. apply startswith_append.
Qed.

Lemma plan_under (base_path : string) (structure : list DirectoryStructure) :
  layout_relative structure = true ->
  forall op p, op ∈ plan base_path structure -> op_path op = Some p ->
               startswith base_path p = true.
Proof.
  intros Hrel op p Hin Hp.
  unfold plan in Hin. apply list_elem_of_In, in_flat_map in Hin.
  destruct Hin as (item & Hitem & Hop).
  unfold layout_relative in Hrel. rewrite forallb_forall in Hrel.
  specialize (Hrel _ Hitem). apply andb_prop in Hrel as [Hname Hchildren].
  apply negb_true_iff in Hname.
  destruct (path_join_relative base_path (dir_name item) Hname) as [z E].
  unfold item_plan in Hop. destruct Hop as [<- | Hop].
  { simpl in Hp. injection Hp as <-. rewrite E. apply startswith_append. }
  destruct (children item) as [[|c cs]|]; try contradiction.
  destruct Hop as [<- | Hop].
  - simpl in Hp. injection Hp as <-.
    destruct (path_join_relative (path_join base_path (dir_name item))
                "index.ts" eq_refl) as [z2 E2].
    rewrite E2, E, append_assoc. apply startswith_append.
  - eapply (child_plan_under base_path
              (path_join base_path (dir_name item)) (c :: cs));
      [by exists z | exact Hchildren | apply list_elem_of_In; exact Hop
       | exact Hp].
Qed.

(** X16.  Whatever the arguments and whatever the environment answers,
    [execute] runs [npm create vite] first and exactly once, for the name
    given as [project_name]; every file-system call after it acts on a path
    that begins with the project path, the join of [path] and
    [project_name]; and every file written is an [index.ts] in a directory
    created earlier in the call. *)
Theorem execute_stays_under_project_path kwargs w r w' :
  tool_execute kwargs w = (r, w') ->
  exists done,
    ops w' =
      ops w ++
      Subprocess ("npm create vite@latest " +:+
                  py_str (default VNone (kwargs !! "project_name")) +:+
                  " -- --template react-ts")
                 (default (VStr ".") (kwargs !! "path"))
      :: done /\
    Forall (fun op => exists path, op_path op = Some path) done /\
    writes_prepared done /\
    forall op p, op ∈ done -> op_path op = Some p ->
      exists project_path,
        os_path_join (default (VStr ".") (kwargs !! "path"))
                     (default VNone (kwargs !! "project_name"))
          = Return project_path /\
        startswith project_path p = true.
Proof.
  intros H. unfold RepoTemplate.execute in H.
  set (project_name := default VNone (kwargs !! "project_name")) in *.
  set (path := default (VStr ".") (kwargs !! "path")) in *.
  set (cmd := "npm create vite@latest " +:+ py_str project_name +:+
              " -- --template react-ts") in *.
  assert (Hnone : forall w1 : ToolWorld,
            ops w1 = ops w ++ [Subprocess cmd path] ->
            forall r1 : outcome PyValue, (r1, w1) = (r, w') ->
            exists done,
              ops w' = ops w ++ Subprocess cmd path :: done /\
              Forall (fun op => exists path, op_path op = Some path) done /\
              writes_prepared done /\
              forall op p, op ∈ done -> op_path op = Some p ->
                exists project_path,
                  os_path_join path project_name = Return project_path /\
                  startswith project_path p = true).
  { intros w1 Hops r1 [= <- <-]. exists []. split_and!.
    - exact Hops.
    - constructor.
    - apply writes_prepared_nil.
    - intros op p Hin. by apply not_elem_of_nil in Hin. }
  destruct (subprocess_run cmd path (fs w)) as [[|message|e] f];
    try (by eapply Hnone; [|exact H]).
  destruct (os_path_join path project_name) as [project_path|e] eqn:Hjoin;
    try (by eapply Hnone; [|exact H]).
  clear Hnone.
  set (structure := if bool_decide
                         (default (VStr "minimal") (kwargs !! "template_type")
                          = VStr "full")
                    then _get_full_structure else _get_base_structure) in *.
  assert (Hrel : layout_relative structure = true)
    by (subst structure; destruct (bool_decide _); reflexivity).
  destruct (create_directory_structure project_path structure
              (mkToolWorld f (ops w ++ [Subprocess cmd path])))
    as [r2 w2] eqn:Hcreate.
  destruct (follows_create_directory_structure _ _ _ _ _ Hcreate)
    as (done & Hops & Hpre & _).
  simpl in Hops.
  assert (Hw : w' = w2) by (destruct r2; by injection H as _ <-).
  subst w'. exists done. split_and!.
  - rewrite Hops, <- app_assoc. reflexivity.
  - apply Forall_forall. intros op Hin.
    pose proof (prefix_elem_of _ _ op Hpre Hin) as Hin'.
    unfold plan in Hin'. apply list_elem_of_In, in_flat_map in Hin'.
    destruct Hin' as (item & _ & Hop). unfold item_plan in Hop.
    destruct Hop as [<- | Hop]; [by eexists|].
    destruct (children item) as [[|c cs]|]; try contradiction.
    destruct Hop as [<- | Hop]; [by eexists|].
    unfold child_plan in Hop. apply in_flat_map in Hop.
    destruct Hop as (child & _ & [<- | [<- | []]]); by eexists.
  - eapply writes_prepared_prefix; [exact Hpre|].
    apply writes_prepared_plan.
  - intros op p Hin Hp. exists project_path. split; [reflexivity|].
    apply (plan_under project_path structure Hrel op p); [|exact Hp].
    by apply (prefix_elem_of _ _ op Hpre).
Qed.

(** X17.  Any [template_type] other than ["full"], be it another string or
    another kind of value, is treated as if no type had been given: the
    result and the calls are those of the default, minimal, layout. *)
Theorem execute_unknown_template_type_is_minimal kwargs (t : PyValue) w :
  t <> VStr "full" ->
  tool_execute (<["template_type" := t]> kwargs) w
    = tool_execute (delete "template_type" kwargs) w.
Proof.
  intros Ht. unfold RepoTemplate.execute.
  rewrite !(lookup_insert_ne kwargs "template_type") by discriminate.
  rewrite !(lookup_delete_ne kwargs "template_type") by discriminate.
  rewrite lookup_insert_eq, lookup_delete_eq. simpl.
  rewrite (bool_decide_eq_false_2 (t = VStr "full")) by exact Ht.
  reflexivity.
Qed.

(** X18.  Without a [project_name], [execute] still runs [npm], for a
    project named [None]; if that succeeds, the call then raises a
    [TypeError] from the joining of the paths, and no directory is
    created. *)
Theorem execute_without_project_name kwargs w f :
  kwargs !! "project_name" = None ->
  subprocess_run "npm create vite@latest None -- --template react-ts"
                 (default (VStr ".") (kwargs !! "path")) (fs w)
    = (Completed, f) ->
  tool_execute kwargs w =
    (Raise (TypeError "expected str, bytes or os.PathLike object"),
     mkToolWorld f
       (ops w ++
        [Subprocess "npm create vite@latest None -- --template react-ts"
                    (default (VStr ".") (kwargs !! "path"))])).
Proof.
  intros Hname Hrun. unfold RepoTemplate.execute. rewrite Hname.
  change ("npm create vite@latest " +:+ py_str (default VNone None) +:+
          " -- --template react-ts")
    with "npm create vite@latest None -- --template react-ts".
  rewrite Hrun.
  by destruct (default (VStr ".") (kwargs !! "path")).
Qed.

Lemma execute_process_failed kwargs w message f :
  subprocess_run
    ("npm create vite@latest " +:+
     py_str (default VNone (kwargs !! "project_name")) +:+
     " -- --template react-ts")
    (default (VStr ".") (kwargs !! "path")) (fs w)
    = (CalledProcessError message, f) ->
  tool_execute kwargs w =
    (Return (VStr ("Error creating template: " +:+ message)),
     mkToolWorld f
       (ops w ++
        [Subprocess ("npm create vite@latest " +:+
                     py_str (default VNone (kwargs !! "project_name")) +:+
                     " -- --template react-ts")
                    (default (VStr ".") (kwargs !! "path"))])).
Proof.
  intros Hrun. unfold RepoTemplate.execute. by rewrite Hrun.
Qed.

Context {ToolParam : Type}.

(** X19.  When the tool is registered with an agent and [npm] fails, the
    dispatcher hands the failure to the model as an observed result of the
    command, without the error marker: [execute] has turned the exception
    into its return value. *)
Theorem template_failure_is_reported_as_result
    (s : Sys ToolWorld ToolParam) (cmd : Cmd) (n message : string) f :
  named cmd n ->
  tool_execution_map (self s) !! n
    = Some (GetRepoTemplateTool_execute subprocess_run makedirs write_text) ->
  subprocess_run
    ("npm create vite@latest " +:+
     py_str (default VNone (kwargs_of cmd !! "project_name")) +:+
     " -- --template react-ts")
    (default (VStr ".") (kwargs_of cmd !! "path")) (fs (world s))
    = (CalledProcessError message, f) ->
  exists s',
    _run_command cmd s =
      (Return (("Observed result of command `" +:+ n +:+
                "` executed by user:" +:+ nl) +:+
               "Error creating template: " +:+ message), s') /\
    startswith ("Error:" +:+ nl)
      (("Observed result of command `" +:+ n +:+
        "` executed by user:" +:+ nl) +:+
       "Error creating template: " +:+ message) = false /\
    self s' =
      (if bool_decide (n ∈ special_tool_commands (self s))
       then set_state FINISHED (self s) else self s).
Proof.
  intros Hn Hmap Hrun.
  pose proof (execute_process_failed (kwargs_of cmd) (world s) message f Hrun)
    as Hexec.
  pose proof (run_command_returned cmd s n _ _ _ Hn Hmap Hexec) as Hcmd.
  assert (Htruthy : truthy (VStr ("Error creating template: " +:+ message))
                    = true).
  { unfold truthy. rewrite append_cons.
    by rewrite bool_decide_eq_false_2 by discriminate. }
  rewrite Htruthy in Hcmd.
  eexists. split_and!; [exact Hcmd | reflexivity | reflexivity].
Qed.

End TemplateTool.


Lemma create_directory_structure_writes_prepared_witness :
  TemplateDemo.create_directory_structure "app"
      RepoTemplate._get_full_structure (TemplateDemo.start true true)
    = (Raise (mkExc true "PermissionError: [Errno 13] Permission denied"),
       (TemplateDemo.create_directory_structure "app"
          RepoTemplate._get_full_structure (TemplateDemo.start true true)).2) /\
  RepoTemplate.writes_prepared
    (RepoTemplate.ops
       (TemplateDemo.create_directory_structure "app"
          RepoTemplate._get_full_structure (TemplateDemo.start true true)).2).
Proof.
  assert (H : RepoTemplate._create_directory_structure
                TemplateDemo.makedirs TemplateDemo.write_text "app"
                RepoTemplate._get_full_structure (TemplateDemo.start true true)
              = (Raise (mkExc true
                   "PermissionError: [Errno 13] Permission denied"),
                 (TemplateDemo.create_directory_structure "app"
                    RepoTemplate._get_full_structure
                    (TemplateDemo.start true true)).2))
    by (vm_compute; reflexivity).
  split; [exact H|].
  destruct (create_directory_structure_writes_prepared
              TemplateDemo.makedirs TemplateDemo.write_text "app"
              RepoTemplate._get_full_structure (TemplateDemo.start true true)
              _ _ H)
    as (done & Hops & Hwp).
  rewrite Hops. exact Hwp.
Defined.

Lemma execute_stays_under_project_path_witness :
  head (RepoTemplate.ops
          (TemplateDemo.execute {[ "project_name" := VStr "app" ]}
             (TemplateDemo.start true false)).2)
  = Some (RepoTemplate.Subprocess
            "npm create vite@latest app -- --template react-ts" (VStr ".")).
Proof.
  destruct (execute_stays_under_project_path
              TemplateDemo.subprocess_run TemplateDemo.makedirs
              TemplateDemo.write_text
              {[ "project_name" := VStr "app" ]}
              (TemplateDemo.start true false) _ _ (surjective_pairing _))
    as (done & Hops & _).
  unfold TemplateDemo.execute. rewrite Hops. reflexivity.
Defined.

Lemma execute_unknown_template_type_is_minimal_witness :
  VStr "basic" <> VStr "full" /\
  TemplateDemo.execute
    (<["template_type" := VStr "basic"]> {[ "project_name" := VStr "app" ]})
    (TemplateDemo.start true false)
  = TemplateDemo.execute
      (delete "template_type" {[ "project_name" := VStr "app" ]})
      (TemplateDemo.start true false).
Proof.
  assert (H : VStr "basic" <> VStr "full") by discriminate.
  split; [exact H|].
  exact (execute_unknown_template_type_is_minimal
           TemplateDemo.subprocess_run TemplateDemo.makedirs
           TemplateDemo.write_text
           {[ "project_name" := VStr "app" ]} (VStr "basic")
           (TemplateDemo.start true false) H).
Defined.

Lemma execute_without_project_name_witness :
  (∅ : gmap string PyValue) !! "project_name" = None /\
  (TemplateDemo.execute ∅ (TemplateDemo.start true false)).1
    = Raise (RepoTemplate.TypeError "expected str, bytes or os.PathLike object").
Proof.
  assert (Hname : (∅ : gmap string PyValue) !! "project_name" = None)
    by reflexivity.
  assert (Hrun : TemplateDemo.subprocess_run
                   "npm create vite@latest None -- --template react-ts"
                   (default (VStr ".") ((∅ : gmap string PyValue) !! "path"))
                   (RepoTemplate.fs (TemplateDemo.start true false))
                 = (RepoTemplate.Completed,
                    RepoTemplate.fs (TemplateDemo.start true false)))
    by reflexivity.
  split; [exact Hname|].
  unfold TemplateDemo.execute.
  rewrite (execute_without_project_name
             TemplateDemo.subprocess_run TemplateDemo.makedirs
             TemplateDemo.write_text ∅ (TemplateDemo.start true false)
             (RepoTemplate.fs (TemplateDemo.start true false)) Hname Hrun).
  reflexivity.
Defined.

Lemma template_failure_is_reported_as_result_witness :
  named TemplateDemo.create_app "get_repo_template" /\
  (_run_command TemplateDemo.create_app (TemplateDemo.sys false false)).1
    = Return ("Observed result of command `get_repo_template` executed by user:"
              +:+ nl +:+
              "Error creating template: Command returned non-zero exit status 1.").
Proof.
  assert (Hn : named TemplateDemo.create_app "get_repo_template")
    by (split; [reflexivity | discriminate]).
  assert (Hmap : tool_execution_map (self (TemplateDemo.sys false false))
                   !! "get_repo_template"
                 = Some (RepoTemplate.GetRepoTemplateTool_execute
                           TemplateDemo.subprocess_run TemplateDemo.makedirs
                           TemplateDemo.write_text))
    by (vm_compute; reflexivity).
  assert (Hrun : TemplateDemo.subprocess_run
                   ("npm create vite@latest " +:+
                    py_str (default VNone
                              (kwargs_of TemplateDemo.create_app
                                 !! "project_name")) +:+
                    " -- --template react-ts")
                   (default (VStr ".")
                      (kwargs_of TemplateDemo.create_app !! "path"))
                   (RepoTemplate.fs (world (TemplateDemo.sys false false)))
                 = (RepoTemplate.CalledProcessError
                      "Command returned non-zero exit status 1.",
                    RepoTemplate.fs (world (TemplateDemo.sys false false))))
    by reflexivity.
  split; [exact Hn|].
  destruct (template_failure_is_reported_as_result
              TemplateDemo.subprocess_run TemplateDemo.makedirs
              TemplateDemo.write_text
              (TemplateDemo.sys false false) TemplateDemo.create_app
              "get_repo_template" "Command returned non-zero exit status 1."
              (RepoTemplate.fs (world (TemplateDemo.sys false false)))
              Hn Hmap Hrun)
    as (s' & Hcmd & _).
  rewrite Hcmd. reflexivity.
Defined.

Lemma think_instruction_fresh_and_transient_witness :
  py_format (next_step_prompt (self (Demo.sys0 [mkResponse None None]))) "/a"
    = Return "cwd: /a" /\
  calls (Demo.think (Demo.sys0 [mkResponse None None])).2
    = [EvBash "pwd"; EvAsk [user_message "cwd: /a"] [tt; tt; tt; tt] ["system"]] /\
  messages (self (Demo.think (Demo.sys0 [mkResponse None None])).2)
    = [from_tool_calls None None].
Proof.
  assert (Hpwd : Demo.bash_execute "pwd"
                   (world (Demo.sys0 [mkResponse None None]))
                 = (Return "/a", Demo.mkWorld "/a" [mkResponse None None]))
    by reflexivity.
  assert (Hne : next_step_prompt (self (Demo.sys0 [mkResponse None None]))
                <> EmptyString)
    by discriminate.
  assert (Hfmt : py_format
                   (next_step_prompt (self (Demo.sys0 [mkResponse None None])))
                   "/a" = Return "cwd: /a")
    by (vm_compute; reflexivity).
  assert (Hask : Demo.aask_function
                   (messages (self (Demo.sys0 [mkResponse None None])) ++
                    [user_message "cwd: /a"])
                   (get_tool_params (self (Demo.sys0 [mkResponse None None])))
                   [system_prompt (self (Demo.sys0 [mkResponse None None]))]
                   (Demo.mkWorld "/a" [mkResponse None None])
                 = (Return (mkResponse None None), Demo.mkWorld "/a" []))
    by reflexivity.
  split; [exact Hfmt|].
  destruct (think_instruction_fresh_and_transient
              Demo.bash_execute Demo.aask_function
              (Demo.sys0 [mkResponse None None]) "/a"
              (Demo.mkWorld "/a" [mkResponse None None]) "cwd: /a"
              (mkResponse None None) (Demo.mkWorld "/a" [])
              Hpwd Hne Hfmt Hask)
    as (r & s' & Hthink & Hcalls & _ & _ & Hmsgs).
  unfold Demo.think. rewrite Hthink. cbn [snd]. rewrite Hcalls, Hmsgs.
  split; reflexivity.
Defined.
